(** * Venus power-management helpers (drivers/media/platform/qcom/venus/pm_helpers.c)

    A shallow embedding of the power sequencing code of the Venus video codec
    driver: the clock set manager, the register handshake primitives, the
    per-core power sequencer, the three per-generation strategies and the
    strategy selector.

    The kernel services the code calls (clock framework, runtime PM, MMIO,
    device links, PM domains) are played by an instrumented double: every call
    is appended, with its arguments and its result, to a log held in the
    world, and the result of a call is chosen by a [platform] record of
    functions that see the whole world, hence the whole history. *)

From Stdlib Require Import ZArith List String Bool Arith Lia.
Import ListNotations.
Open Scope Z_scope.

(** ** Machine values *)

(** A pointer is the value of an [unsigned long] on a 64-bit kernel. *)
Definition ptr := Z.
Definition NULL : ptr := 0.
Definition BITS_PER_LONG : Z := 64.

(** What a double answers is taken as a 64-bit word. *)
Definition wrap_ptr (z : Z) : ptr := z mod 2 ^ BITS_PER_LONG.

(** [(long)] of a pointer and [(int)] of a long, wrap-around written out. *)
Definition long_of_ptr (p : ptr) : Z :=
  if p <? 2 ^ (BITS_PER_LONG - 1) then p else p - 2 ^ BITS_PER_LONG.
Definition int_of_long (z : Z) : Z := (z + 2 ^ 31) mod 2 ^ 32 - 2 ^ 31.

(** linux/err.h and the errno values the file uses. *)
Definition MAX_ERRNO : Z := 4095.
Definition ENODEV : Z := 19.
Definition ETIMEDOUT : Z := 110.

Definition IS_ERR_VALUE (x : Z) : bool := 2 ^ BITS_PER_LONG - MAX_ERRNO <=? x.
Definition IS_ERR (p : ptr) : bool := IS_ERR_VALUE p.
Definition IS_ERR_OR_NULL (p : ptr) : bool := (p =? NULL) || IS_ERR_VALUE p.
Definition PTR_ERR (p : ptr) : Z := long_of_ptr p.

Definition BIT (n : Z) : Z := Z.shiftl 1 n.

(** pm_helpers.h *)
Definition POWER_ON : Z := 1.
Definition POWER_OFF : Z := 0.

(** hfi_helper.h: core identifiers (used as a mask) and session types. *)
Definition VIDC_CORE_ID_1 : Z := 1.
Definition VIDC_CORE_ID_2 : Z := 2.
Definition VIDC_SESSION_TYPE_ENC : Z := 1.
Definition VIDC_SESSION_TYPE_DEC : Z := 2.

(** hfi.h: [enum hfi_version]. *)
Definition HFI_VERSION_1XX : Z := 0.
Definition HFI_VERSION_3XX : Z := 1.
Definition HFI_VERSION_4XX : Z := 2.

(** linux/device.h: device link flags. *)
Definition DL_FLAG_STATELESS : Z := BIT 0.
Definition DL_FLAG_PM_RUNTIME : Z := BIT 2.
Definition DL_FLAG_RPM_ACTIVE : Z := BIT 3.

(** hfi_venus_io.h: the wrapper register offsets are not part of the sources
    at hand; they are taken as parameters. *)
Record hfi_venus_io := mkIo {
  WRAPPER_VDEC_VCODEC_POWER_CONTROL : Z;
  WRAPPER_VENC_VCODEC_POWER_CONTROL : Z;
  WRAPPER_VCODEC0_MMCC_POWER_STATUS : Z;
  WRAPPER_VCODEC0_MMCC_POWER_CONTROL : Z;
  WRAPPER_VCODEC1_MMCC_POWER_STATUS : Z;
  WRAPPER_VCODEC1_MMCC_POWER_CONTROL : Z
}.

(** ** Driver data *)

(** [struct venus_resources]: the clock names of the chip and their number. *)
Record venus_resources := mkRes {
  res_clks : list string;
  clks_num : nat
}.

(** [struct venus_core], the fields pm_helpers.c reads and writes. *)
Record venus_core := mkCore {
  dev : ptr;
  base : ptr;
  res : venus_resources;
  clks : list ptr;
  core0_clk : ptr;
  core0_bus_clk : ptr;
  core1_clk : ptr;
  core1_bus_clk : ptr;
  pd_core : ptr;
  pd_core0 : ptr;
  pd_core1 : ptr;
  pd_dl_venus : ptr
}.

(** [core->clks[i]] and [res->clks[i]]. *)
Definition clk_at (core : venus_core) (i : nat) : ptr := nth i (clks core) NULL.
Definition clk_name_at (r : venus_resources) (i : nat) : string :=
  nth i (res_clks r) EmptyString.

(** [a[i] = v]; the array keeps its size. *)
Fixpoint array_set (a : list ptr) (i : nat) (v : ptr) : list ptr :=
  match a, i with
  | [], _ => []
  | _ :: a', O => v :: a'
  | x :: a', S i' => x :: array_set a' i' v
  end.

(** ** The instrumented world *)

(** One entry per call of a kernel service, in call order. *)
Inductive event :=
| EvDevmClkGet (id : string) (result : ptr)
| EvClkPrepareEnable (clk : ptr) (result : Z)
| EvClkDisableUnprepare (clk : ptr)
| EvWritel (val : Z) (addr : ptr)
| EvReadlPoll (addr : ptr) (sleep_us timeout_us : nat) (vals : list Z) (result : Z)
| EvPmRuntimeGetSync (pd : ptr) (result : Z)
| EvPmRuntimePutSync (pd : ptr) (result : Z)
| EvPmDomainAttach (name : string) (result : ptr)
| EvPmDomainDetach (pd : ptr) (power_off : bool)
| EvDeviceLinkAdd (consumer supplier : ptr) (flags : Z) (result : ptr)
| EvDeviceLinkDel (link : ptr).

Inductive printk_arg :=
| ArgStr (s : string)
| ArgInt (z : Z).

(** The world: the call log, the kernel log written by [dev_err], the enable
    count of every clock (the clock framework counts enables per clock), and
    the driver data of the device. *)
Record world := mkWorld {
  events : list event;
  dmesg : list (string * list printk_arg);
  enable_count : ptr -> nat;
  drvdata : venus_core
}.

(** The double: how each service answers, given the world at the call.
    [readl_value w i a] is what the [i]-th read of address [a] returns in a
    poll that starts in world [w]. [indeterminate_int] stands for what an
    [int] local holds before its first assignment: C gives such a read no
    defined value. The per-core sequencers read one only when the mask
    selects no core, and no statement below speaks of the value. *)
Record platform := mkPlatform {
  devm_clk_get_result : world -> string -> Z;
  clk_prepare_enable_result : world -> ptr -> Z;
  readl_value : world -> nat -> ptr -> Z;
  pm_runtime_get_sync_result : world -> ptr -> Z;
  pm_runtime_put_sync_result : world -> ptr -> Z;
  dev_pm_domain_attach_by_name_result : world -> string -> Z;
  device_link_add_result : world -> ptr -> Z -> Z;
  indeterminate_int : Z
}.

(** ** A state monad over the world *)

Definition M (A : Type) : Type := world -> A * world.

Definition pure {A} (a : A) : M A := fun w => (a, w).
Definition bind {A B} (m : M A) (f : A -> M B) : M B :=
  fun w => let (a, w') := m w in f a w'.

Declare Scope venus_scope.
Delimit Scope venus_scope with venus.
Notation "x <- c1 ;; c2" := (bind c1 (fun x => c2))
  (at level 61, c1 at next level, right associativity) : venus_scope.
Notation "c1 ;; c2" := (bind c1 (fun _ => c2))
  (at level 61, right associativity) : venus_scope.
Open Scope venus_scope.

Definition log (e : event) (w : world) : world :=
  mkWorld (events w ++ [e]) (dmesg w) (enable_count w) (drvdata w).

Definition clk_count_up (c : ptr) (w : world) : world :=
  mkWorld (events w) (dmesg w)
          (fun c' => if c' =? c then S (enable_count w c') else enable_count w c')
          (drvdata w).

Definition clk_count_down (c : ptr) (w : world) : world :=
  mkWorld (events w) (dmesg w)
          (fun c' => if c' =? c then Nat.pred (enable_count w c') else enable_count w c')
          (drvdata w).

(** The count after an enable that returned [r]. *)
Definition clk_settle (r : Z) (c : ptr) (w : world) : world :=
  if r =? 0 then clk_count_up c w else w.

Definition printk (fmt : string) (args : list printk_arg) (w : world) : world :=
  mkWorld (events w) (dmesg w ++ [(fmt, args)]) (enable_count w) (drvdata w).

Definition store (f : venus_core -> venus_core) (w : world) : world :=
  mkWorld (events w) (dmesg w) (enable_count w) (f (drvdata w)).

Definition set_drvdata (f : venus_core -> venus_core) : M unit :=
  fun w => (tt, store f w).

Definition set_clks_at (i : nat) (v : ptr) (c : venus_core) : venus_core :=
  mkCore (dev c) (base c) (res c) (array_set (clks c) i v) (core0_clk c) (core0_bus_clk c)
         (core1_clk c) (core1_bus_clk c) (pd_core c) (pd_core0 c) (pd_core1 c)
         (pd_dl_venus c).
Definition set_core0_clk (v : ptr) (c : venus_core) : venus_core :=
  mkCore (dev c) (base c) (res c) (clks c) v (core0_bus_clk c)
         (core1_clk c) (core1_bus_clk c) (pd_core c) (pd_core0 c) (pd_core1 c)
         (pd_dl_venus c).
Definition set_core0_bus_clk (v : ptr) (c : venus_core) : venus_core :=
  mkCore (dev c) (base c) (res c) (clks c) (core0_clk c) v
         (core1_clk c) (core1_bus_clk c) (pd_core c) (pd_core0 c) (pd_core1 c)
         (pd_dl_venus c).
Definition set_core1_clk (v : ptr) (c : venus_core) : venus_core :=
  mkCore (dev c) (base c) (res c) (clks c) (core0_clk c) (core0_bus_clk c)
         v (core1_bus_clk c) (pd_core c) (pd_core0 c) (pd_core1 c)
         (pd_dl_venus c).
Definition set_core1_bus_clk (v : ptr) (c : venus_core) : venus_core :=
  mkCore (dev c) (base c) (res c) (clks c) (core0_clk c) (core0_bus_clk c)
         (core1_clk c) v (pd_core c) (pd_core0 c) (pd_core1 c)
         (pd_dl_venus c).
Definition set_pd_core (v : ptr) (c : venus_core) : venus_core :=
  mkCore (dev c) (base c) (res c) (clks c) (core0_clk c) (core0_bus_clk c)
         (core1_clk c) (core1_bus_clk c) v (pd_core0 c) (pd_core1 c)
         (pd_dl_venus c).
Definition set_pd_core0 (v : ptr) (c : venus_core) : venus_core :=
  mkCore (dev c) (base c) (res c) (clks c) (core0_clk c) (core0_bus_clk c)
         (core1_clk c) (core1_bus_clk c) (pd_core c) v (pd_core1 c)
         (pd_dl_venus c).
Definition set_pd_core1 (v : ptr) (c : venus_core) : venus_core :=
  mkCore (dev c) (base c) (res c) (clks c) (core0_clk c) (core0_bus_clk c)
         (core1_clk c) (core1_bus_clk c) (pd_core c) (pd_core0 c) v
         (pd_dl_venus c).
Definition set_pd_dl_venus (v : ptr) (c : venus_core) : venus_core :=
  mkCore (dev c) (base c) (res c) (clks c) (core0_clk c) (core0_bus_clk c)
         (core1_clk c) (core1_bus_clk c) (pd_core c) (pd_core0 c) (pd_core1 c)
         v.

(** [struct venus_pm_ops] (pm_helpers.h): a table of function pointers; a
    member left out of an initialiser is a null pointer. *)
Record venus_pm_ops := mkOps {
  core_get_pm : option (ptr -> M Z);
  core_put_pm : option (ptr -> M unit);
  core_power : option (ptr -> Z -> M Z);
  vdec_get_pm : option (ptr -> M Z);
  vdec_power : option (ptr -> Z -> M Z);
  venc_get_pm : option (ptr -> M Z);
  venc_power : option (ptr -> Z -> M Z)
}.

(** Control leaves a block either by [return v] or by falling out of it with
    the local [ret] holding a value. *)
Inductive flow :=
| Return (v : Z)
| Next (ret : Z).

Section PmHelpers.

Variable hw : platform.
Variable io : hfi_venus_io.

(** ** The kernel services, as the double plays them

    A service logs its call and returns what the platform answers. A pointer
    result is taken as a 64-bit word; an [int] result is kept as an integer,
    the code only compares it with 0. *)

Definition dev_get_drvdata (dev : ptr) : M venus_core :=
  fun w => (drvdata w, w).

Definition dev_err (dev : ptr) (fmt : string) (args : list printk_arg) : M unit :=
  fun w => (tt, printk fmt args w).

Definition devm_clk_get (dev : ptr) (id : string) : M ptr :=
  fun w => let p := wrap_ptr (devm_clk_get_result hw w id) in
           (p, log (EvDevmClkGet id p) w).

(** Modelled from the spec: the clock framework (linux/clk.h) is not among
    the sources. The spec (sections 4.1 and 6) takes [enable()] and
    [disable()] of a clock handle as given: an enable succeeds or fails with
    an error code, a disable cannot fail, and their effect is the clock's
    enable state. That state is kept as the enable count of the clock: a
    successful enable raises it, a failed one leaves it as it was. *)
Definition clk_prepare_enable (clk : ptr) : M Z :=
  fun w => let r := clk_prepare_enable_result hw w clk in
           (r, log (EvClkPrepareEnable clk r) (clk_settle r clk w)).

(** Modelled from the spec: the counterpart of [clk_prepare_enable] above.
    A disable lowers the enable count; a count of zero stays at zero. *)
Definition clk_disable_unprepare (clk : ptr) : M unit :=
  fun w => (tt, log (EvClkDisableUnprepare clk) (clk_count_down clk w)).

Definition writel (val : Z) (addr : ptr) : M unit :=
  fun w => (tt, log (EvWritel val addr) w).

(** Modelled from the spec: [readl_poll_timeout] (linux/iopoll.h) is not among
    the sources. The spec (sections 4.2 and 9) describes it as a bounded retry
    loop with an explicit interval and deadline: the register is read at most
    [timeout / interval] times; the first read that satisfies the condition
    ends the loop with success, and when no read does the result is the
    timeout error. *)
Fixpoint poll_loop (read : nat -> Z) (cond : Z -> bool) (polls i : nat)
  : list Z * Z :=
  match polls with
  | O => ([], - ETIMEDOUT)
  | S polls' =>
      let val := read i in
      if cond val then ([val], 0)
      else let (vals, r) := poll_loop read cond polls' (S i) in (val :: vals, r)
  end.

(** Modelled from the spec: [readl_poll_timeout(addr, val, cond, sleep_us,
    timeout_us)] as the bounded loop above, with [timeout_us / sleep_us]
    reads of [addr] at most; the call is logged with its interval, its
    timeout, the values it read and its result. *)
Definition readl_poll_timeout (addr : ptr) (cond : Z -> bool)
           (sleep_us timeout_us : nat) : M Z :=
  fun w => let (vals, r) := poll_loop (fun i => readl_value hw w i addr) cond
                                      (timeout_us / sleep_us) 0 in
           (r, log (EvReadlPoll addr sleep_us timeout_us vals r) w).

Definition pm_runtime_get_sync (pd : ptr) : M Z :=
  fun w => let r := pm_runtime_get_sync_result hw w pd in
           (r, log (EvPmRuntimeGetSync pd r) w).

Definition pm_runtime_put_sync (pd : ptr) : M Z :=
  fun w => let r := pm_runtime_put_sync_result hw w pd in
           (r, log (EvPmRuntimePutSync pd r) w).

Definition dev_pm_domain_attach_by_name (dev : ptr) (name : string) : M ptr :=
  fun w => let p := wrap_ptr (dev_pm_domain_attach_by_name_result hw w name) in
           (p, log (EvPmDomainAttach name p) w).

Definition dev_pm_domain_detach (pd : ptr) (power_off : bool) : M unit :=
  fun w => (tt, log (EvPmDomainDetach pd power_off) w).

Definition device_link_add (consumer supplier : ptr) (flags : Z) : M ptr :=
  fun w => let p := wrap_ptr (device_link_add_result hw w supplier flags) in
           (p, log (EvDeviceLinkAdd consumer supplier flags p) w).

Definition device_link_del (link : ptr) : M unit :=
  fun w => (tt, log (EvDeviceLinkDel link) w).

(** ** Clock set manager *)

(** [core] is the driver data as it is at the call; what the function stores
    in [core->clks] goes to the driver data of the world. The loop is
    [for (i = 0; i < res->clks_num; i++)] with [n] iterations left, and its
    result the error of the first clock that does not resolve. *)
Fixpoint core_clks_get_loop (core : venus_core) (n i : nat) : M (option Z) :=
  let res := res core in
  let dev := dev core in
  match n with
  | O => pure None
  | S n' =>
      clk <- devm_clk_get dev (clk_name_at res i);;
      set_drvdata (set_clks_at i clk);;
      if IS_ERR clk then pure (Some (int_of_long (PTR_ERR clk)))
      else core_clks_get_loop core n' (S i)
  end.

Definition core_clks_get (core : venus_core) : M Z :=
  out <- core_clks_get_loop core (clks_num (res core)) 0;;
  match out with
  | Some err => pure err
  | None => pure 0
  end.

(** The enable loop; [Some (ret, i)] is the jump to [err] with the locals
    [ret] and [i]. *)
Fixpoint core_clks_enable_loop (core : venus_core) (n i : nat)
  : M (option (Z * nat)) :=
  match n with
  | O => pure None
  | S n' =>
      ret <- clk_prepare_enable (clk_at core i);;
      if negb (ret =? 0) then pure (Some (ret, i))
      else core_clks_enable_loop core n' (S i)
  end.

(** [while (i--) clk_disable_unprepare(core->clks[i]);] *)
Fixpoint clks_disable_from (core : venus_core) (i : nat) : M unit :=
  match i with
  | O => pure tt
  | S i' =>
      clk_disable_unprepare (clk_at core i');;
      clks_disable_from core i'
  end.

Definition core_clks_enable (core : venus_core) : M Z :=
  out <- core_clks_enable_loop core (clks_num (res core)) 0;;
  match out with
  | None => pure 0
  | Some (ret, i) => clks_disable_from core i;; pure ret
  end.

Definition core_clks_disable (core : venus_core) : M unit :=
  clks_disable_from core (clks_num (res core)).

(** ** Register handshake primitives *)

Definition vcodec_power_control_v3 (core : venus_core) (session_type : Z)
           (enable : bool) : M unit :=
  let ctrl := if session_type =? VIDC_SESSION_TYPE_DEC
              then base core + WRAPPER_VDEC_VCODEC_POWER_CONTROL io
              else base core + WRAPPER_VENC_VCODEC_POWER_CONTROL io in
  if enable then writel 0 ctrl else writel 1 ctrl.

Definition vcodec_power_control_v4 (core : venus_core) (coreid : Z)
           (enable : bool) : M Z :=
  let '(ctrl, stat) :=
    if coreid =? VIDC_CORE_ID_1
    then (base core + WRAPPER_VCODEC0_MMCC_POWER_CONTROL io,
          base core + WRAPPER_VCODEC0_MMCC_POWER_STATUS io)
    else (base core + WRAPPER_VCODEC1_MMCC_POWER_CONTROL io,
          base core + WRAPPER_VCODEC1_MMCC_POWER_STATUS io) in
  if enable then
    writel 0 ctrl;;
    ret <- readl_poll_timeout stat (fun val => negb (Z.land val (BIT 1) =? 0)) 1 100;;
    if negb (ret =? 0) then pure ret else pure 0
  else
    writel 1 ctrl;;
    ret <- readl_poll_timeout stat (fun val => Z.land val (BIT 1) =? 0) 1 100;;
    if negb (ret =? 0) then pure ret else pure 0.

(** ** Per-core power sequencer *)

Definition poweroff_by_core_id (core : venus_core) (dev : ptr)
           (coreid_mask : Z) : M Z :=
  let ret := indeterminate_int hw in
  out <-
    (if negb (Z.land coreid_mask VIDC_CORE_ID_1 =? 0) then
       ret <- vcodec_power_control_v4 core VIDC_CORE_ID_1 true;;
       if negb (ret =? 0) then pure (Return ret) else
       clk_disable_unprepare (core0_bus_clk core);;
       clk_disable_unprepare (core0_clk core);;
       ret <- vcodec_power_control_v4 core VIDC_CORE_ID_1 false;;
       (if negb (ret =? 0)
        then dev_err dev "%s: power off vcodec0 failed %d\n"
                     [ArgStr "poweroff_by_core_id"; ArgInt ret]
        else pure tt);;
       ret <- pm_runtime_put_sync (pd_core0 core);;
       if ret <? 0 then pure (Return ret) else pure (Next ret)
     else pure (Next ret));;
  match out with
  | Return v => pure v
  | Next ret =>
      if negb (Z.land coreid_mask VIDC_CORE_ID_2 =? 0) then
        ret <- vcodec_power_control_v4 core VIDC_CORE_ID_2 true;;
        if negb (ret =? 0) then pure ret else
        clk_disable_unprepare (core1_bus_clk core);;
        clk_disable_unprepare (core1_clk core);;
        ret <- vcodec_power_control_v4 core VIDC_CORE_ID_2 false;;
        (if negb (ret =? 0)
         then dev_err dev "%s: power off vcodec1 failed %d\n"
                      [ArgStr "poweroff_by_core_id"; ArgInt ret]
         else pure tt);;
        ret <- pm_runtime_put_sync (pd_core1 core);;
        pure ret
      else pure ret
  end.

Definition poweron_by_core_id (core : venus_core) (dev : ptr)
           (coreid_mask : Z) : M Z :=
  let ret := indeterminate_int hw in
  out <-
    (if negb (Z.land coreid_mask VIDC_CORE_ID_1 =? 0) then
       ret <- pm_runtime_get_sync (pd_core0 core);;
       if ret <? 0 then pure (Return ret) else
       ret <- vcodec_power_control_v4 core VIDC_CORE_ID_1 true;;
       if negb (ret =? 0) then pure (Return ret) else
       ret <- clk_prepare_enable (core0_clk core);;
       if negb (ret =? 0) then pure (Return ret) else
       ret <- clk_prepare_enable (core0_bus_clk core);;
       if negb (ret =? 0) then pure (Return ret) else
       ret <- vcodec_power_control_v4 core VIDC_CORE_ID_1 false;;
       if ret <? 0 then pure (Return ret) else pure (Next ret)
     else pure (Next ret));;
  match out with
  | Return v => pure v
  | Next ret =>
      if negb (Z.land coreid_mask VIDC_CORE_ID_2 =? 0) then
        ret <- pm_runtime_get_sync (pd_core1 core);;
        if ret <? 0 then pure ret else
        ret <- vcodec_power_control_v4 core VIDC_CORE_ID_2 true;;
        if negb (ret =? 0) then pure ret else
        ret <- clk_prepare_enable (core1_clk core);;
        if negb (ret =? 0) then pure ret else
        ret <- clk_prepare_enable (core1_bus_clk core);;
        if negb (ret =? 0) then pure ret else
        ret <- vcodec_power_control_v4 core VIDC_CORE_ID_2 false;;
        pure ret
      else pure ret
  end.

(** ** Generation 1 *)

Definition core_get_pm_v1 (dev : ptr) : M Z :=
  core <- dev_get_drvdata dev;;
  core_clks_get core.

Definition core_power_v1 (dev : ptr) (on : Z) : M Z :=
  core <- dev_get_drvdata dev;;
  let ret := 0 in
  if on =? POWER_ON then
    ret <- core_clks_enable core;;
    pure ret
  else
    core_clks_disable core;;
    pure ret.

(** ** Generation 3 *)

Definition vdec_get_pm_v3 (dev : ptr) : M Z :=
  clk <- devm_clk_get dev "core";;
  set_drvdata (set_core0_clk clk);;
  if IS_ERR clk then pure (int_of_long (PTR_ERR clk)) else pure 0.

Definition vdec_power_v3 (dev : ptr) (on : Z) : M Z :=
  core <- dev_get_drvdata dev;;
  let ret := 0 in
  if on =? POWER_ON then
    vcodec_power_control_v3 core VIDC_SESSION_TYPE_DEC true;;
    ret <- clk_prepare_enable (core0_clk core);;
    vcodec_power_control_v3 core VIDC_SESSION_TYPE_DEC false;;
    pure ret
  else
    vcodec_power_control_v3 core VIDC_SESSION_TYPE_DEC true;;
    clk_disable_unprepare (core0_clk core);;
    vcodec_power_control_v3 core VIDC_SESSION_TYPE_DEC false;;
    pure ret.

Definition venc_get_pm_v3 (dev : ptr) : M Z :=
  clk <- devm_clk_get dev "core";;
  set_drvdata (set_core1_clk clk);;
  if IS_ERR clk then pure (int_of_long (PTR_ERR clk)) else pure 0.

Definition venc_power_v3 (dev : ptr) (on : Z) : M Z :=
  core <- dev_get_drvdata dev;;
  let ret := 0 in
  if on =? POWER_ON then
    vcodec_power_control_v3 core VIDC_SESSION_TYPE_ENC true;;
    ret <- clk_prepare_enable (core1_clk core);;
    vcodec_power_control_v3 core VIDC_SESSION_TYPE_ENC false;;
    pure ret
  else
    vcodec_power_control_v3 core VIDC_SESSION_TYPE_ENC true;;
    clk_disable_unprepare (core1_clk core);;
    vcodec_power_control_v3 core VIDC_SESSION_TYPE_ENC false;;
    pure ret.

Definition venus_pm_ops_v1 : venus_pm_ops :=
  mkOps (Some core_get_pm_v1) None (Some core_power_v1) None None None None.

Definition venus_pm_ops_v3 : venus_pm_ops :=
  mkOps (Some core_get_pm_v1) None (Some core_power_v1)
        (Some vdec_get_pm_v3) (Some vdec_power_v3)
        (Some venc_get_pm_v3) (Some venc_power_v3).

(** ** Generation 4 *)

Definition core_get_pm_v4 (dev : ptr) : M Z :=
  core <- dev_get_drvdata dev;;
  ret <- core_clks_get core;;
  if negb (ret =? 0) then pure ret else
  clk <- devm_clk_get dev "vcodec0_core";;
  set_drvdata (set_core0_clk clk);;
  if IS_ERR clk then pure (int_of_long (PTR_ERR clk)) else
  clk <- devm_clk_get dev "vcodec0_bus";;
  set_drvdata (set_core0_bus_clk clk);;
  if IS_ERR clk then pure (int_of_long (PTR_ERR clk)) else
  clk <- devm_clk_get dev "vcodec1_core";;
  set_drvdata (set_core1_clk clk);;
  if IS_ERR clk then pure (int_of_long (PTR_ERR clk)) else
  clk <- devm_clk_get dev "vcodec1_bus";;
  set_drvdata (set_core1_bus_clk clk);;
  if IS_ERR clk then pure (int_of_long (PTR_ERR clk)) else
  pd <- dev_pm_domain_attach_by_name dev "venus";;
  set_drvdata (set_pd_core pd);;
  if IS_ERR pd then pure (int_of_long (PTR_ERR pd)) else
  pd <- dev_pm_domain_attach_by_name dev "vcodec0";;
  set_drvdata (set_pd_core0 pd);;
  if IS_ERR pd then pure (int_of_long (PTR_ERR pd)) else
  pd <- dev_pm_domain_attach_by_name dev "vcodec1";;
  set_drvdata (set_pd_core1 pd);;
  if IS_ERR pd then pure (int_of_long (PTR_ERR pd)) else
  core <- dev_get_drvdata dev;;
  link <- device_link_add dev (pd_core core)
            (Z.lor (Z.lor DL_FLAG_PM_RUNTIME DL_FLAG_STATELESS) DL_FLAG_RPM_ACTIVE);;
  set_drvdata (set_pd_dl_venus link);;
  if link =? NULL then
    dev_err dev "adding venus device link failed!\n" [];;
    pure (- ENODEV)
  else pure 0.

Definition core_put_pm_v4 (dev : ptr) : M unit :=
  core <- dev_get_drvdata dev;;
  (if negb (pd_dl_venus core =? NULL)
   then device_link_del (pd_dl_venus core) else pure tt);;
  (if negb (IS_ERR_OR_NULL (pd_core core))
   then dev_pm_domain_detach (pd_core core) true else pure tt);;
  (if negb (IS_ERR_OR_NULL (pd_core0 core))
   then dev_pm_domain_detach (pd_core0 core) true else pure tt);;
  (if negb (IS_ERR_OR_NULL (pd_core1 core))
   then dev_pm_domain_detach (pd_core1 core) true else pure tt).

Definition core_power_v4 (dev : ptr) (on : Z) : M Z :=
  core <- dev_get_drvdata dev;;
  if on =? POWER_ON then
    ret <- core_clks_enable core;;
    if negb (ret =? 0) then
      dev_err dev "core clocks enable failed (%d)\n" [ArgInt ret];;
      pure ret
    else
      ret <- poweron_by_core_id core dev (Z.lor VIDC_CORE_ID_1 VIDC_CORE_ID_2);;
      pure ret
  else
    ret <- poweroff_by_core_id core dev (Z.lor VIDC_CORE_ID_1 VIDC_CORE_ID_2);;
    (if negb (ret =? 0)
     then dev_err dev "poweroff by core failed (%d)\n" [ArgInt ret]
     else pure tt);;
    core_clks_disable core;;
    pure ret.

Definition venus_pm_ops_v4 : venus_pm_ops :=
  mkOps (Some core_get_pm_v4) (Some core_put_pm_v4) (Some core_power_v4)
        None None None None.

(** ** Version strategy selector *)

(** The result is a pointer to one of the three tables; [None] is the null
    pointer of the statement after the [switch], which no case reaches. *)
Definition venus_get_pm_ops (version : Z) : option venus_pm_ops :=
  if version =? HFI_VERSION_1XX then Some venus_pm_ops_v1
  else if version =? HFI_VERSION_3XX then Some venus_pm_ops_v3
  else if version =? HFI_VERSION_4XX then Some venus_pm_ops_v4
  else (* default: *) Some venus_pm_ops_v1.

End PmHelpers.

(** * Vocabulary of the statements *)

(** The registers of a core's handshake and the value written to request a
    state: [enable] writes 0, its opposite writes 1. *)
Definition v4_ctrl (io : hfi_venus_io) (core : venus_core) (coreid : Z) : ptr :=
  if coreid =? VIDC_CORE_ID_1
  then base core + WRAPPER_VCODEC0_MMCC_POWER_CONTROL io
  else base core + WRAPPER_VCODEC1_MMCC_POWER_CONTROL io.

Definition v4_stat (io : hfi_venus_io) (core : venus_core) (coreid : Z) : ptr :=
  if coreid =? VIDC_CORE_ID_1
  then base core + WRAPPER_VCODEC0_MMCC_POWER_STATUS io
  else base core + WRAPPER_VCODEC1_MMCC_POWER_STATUS io.

Definition ctrl_value (enable : bool) : Z := if enable then 0 else 1.

(** The status bit (bit 1 of the status register) shows the requested state. *)
Definition status_reached (enable : bool) (val : Z) : bool :=
  Bool.eqb (Z.testbit val 1) enable.

(** The clocks of the set, in insertion order: [core->clks[0 .. clks_num)]. *)
Definition clock_set (core : venus_core) : list ptr :=
  map (clk_at core) (seq 0 (clks_num (res core))).

(** How many times a clock occurs among the first [n] of the set. *)
Definition occurrences (core : venus_core) (i n : nat) (c : ptr) : nat :=
  count_occ Z.eq_dec (map (clk_at core) (seq i n)) c.

Definition enabled_ok (core : venus_core) (j : nat) : event :=
  EvClkPrepareEnable (clk_at core j) 0.

Definition disabled (core : venus_core) (j : nat) : event :=
  EvClkDisableUnprepare (clk_at core j).

(** The two calls of a handshake: the write of the control register and the
    poll of the status register every microsecond for 100 microseconds at
    most, with the values it read and its result. *)
Definition handshake (io : hfi_venus_io) (core : venus_core) (coreid : Z)
           (enable : bool) (vals : list Z) (r : Z) : list event :=
  [EvWritel (ctrl_value enable) (v4_ctrl io core coreid);
   EvReadlPoll (v4_stat io core coreid) 1 100 vals r].

(** The resources of a core. *)
Definition core_clk_of (core : venus_core) (coreid : Z) : ptr :=
  if coreid =? VIDC_CORE_ID_1 then core0_clk core else core1_clk core.
Definition core_bus_clk_of (core : venus_core) (coreid : Z) : ptr :=
  if coreid =? VIDC_CORE_ID_1 then core0_bus_clk core else core1_bus_clk core.
Definition pd_of (core : venus_core) (coreid : Z) : ptr :=
  if coreid =? VIDC_CORE_ID_1 then pd_core0 core else pd_core1 core.

(** A core's power-off sequence run to its end: assert handshake (which
    succeeded), core-bus clock off, core clock off, de-assert handshake with
    result [r_d], domain release with result [r_p]. *)
Definition core_off_events (io : hfi_venus_io) (core : venus_core) (coreid : Z)
           (vals_a vals_d : list Z) (r_d r_p : Z) : list event :=
  handshake io core coreid true vals_a 0
  ++ [EvClkDisableUnprepare (core_bus_clk_of core coreid);
      EvClkDisableUnprepare (core_clk_of core coreid)]
  ++ handshake io core coreid false vals_d r_d
  ++ [EvPmRuntimePutSync (pd_of core coreid) r_p].

(** What a failed de-assert leaves in the log. *)
Definition deassert_log (fmt : string) (r_d : Z)
  : list (string * list printk_arg) :=
  if r_d =? 0 then [] else [(fmt, [ArgStr "poweroff_by_core_id"; ArgInt r_d])].

(** A core's power-on sequence run to its end: domain acquire with result
    [r_pd], assert handshake, core clock on, core-bus clock on (the three of
    them succeeded), de-assert handshake with result [r_d]. *)
Definition core_on_events (io : hfi_venus_io) (core : venus_core) (coreid : Z)
           (r_pd : Z) (vals_a vals_d : list Z) (r_d : Z) : list event :=
  [EvPmRuntimeGetSync (pd_of core coreid) r_pd]
  ++ handshake io core coreid true vals_a 0
  ++ [EvClkPrepareEnable (core_clk_of core coreid) 0;
      EvClkPrepareEnable (core_bus_clk_of core coreid) 0]
  ++ handshake io core coreid false vals_d r_d.

(** A core's power-on sequence that stops before its de-assert handshake:
    the calls made, the last of them the step that failed, and the error of
    that step. The domain acquire fails with a negative result, the assert
    handshake and the two clocks with any result other than 0; every step
    before the failing one succeeded. *)
Inductive core_on_stops (io : hfi_venus_io) (core : venus_core) (coreid : Z)
  : list event -> Z -> Prop :=
| stops_at_acquire (r_pd : Z) :
    r_pd < 0 ->
    core_on_stops io core coreid
      [EvPmRuntimeGetSync (pd_of core coreid) r_pd] r_pd
| stops_at_assert (r_pd : Z) (vals_a : list Z) (r_a : Z) :
    0 <= r_pd -> r_a <> 0 ->
    core_on_stops io core coreid
      ([EvPmRuntimeGetSync (pd_of core coreid) r_pd]
       ++ handshake io core coreid true vals_a r_a) r_a
| stops_at_core_clk (r_pd : Z) (vals_a : list Z) (r_clk : Z) :
    0 <= r_pd -> r_clk <> 0 ->
    core_on_stops io core coreid
      ([EvPmRuntimeGetSync (pd_of core coreid) r_pd]
       ++ handshake io core coreid true vals_a 0
       ++ [EvClkPrepareEnable (core_clk_of core coreid) r_clk]) r_clk
| stops_at_core_bus_clk (r_pd : Z) (vals_a : list Z) (r_bus : Z) :
    0 <= r_pd -> r_bus <> 0 ->
    core_on_stops io core coreid
      ([EvPmRuntimeGetSync (pd_of core coreid) r_pd]
       ++ handshake io core coreid true vals_a 0
       ++ [EvClkPrepareEnable (core_clk_of core coreid) 0;
           EvClkPrepareEnable (core_bus_clk_of core coreid) r_bus]) r_bus.

(** The resources generation 4 resolves, and the resource a call resolves. *)
Inductive resource :=
| RClk (id : string)
| RDomain (name : string)
| RLink
| ROther.

Definition resource_of (e : event) : resource :=
  match e with
  | EvDevmClkGet id _ => RClk id
  | EvPmDomainAttach name _ => RDomain name
  | EvDeviceLinkAdd _ _ _ _ => RLink
  | _ => ROther
  end.

(** The order of resolution: the shared clock set, the two per-core clock
    pairs, the shared power domain, the two per-core power domains, the
    device link. *)
Definition v4_own_resources : list resource :=
  [RClk "vcodec0_core"; RClk "vcodec0_bus"; RClk "vcodec1_core"; RClk "vcodec1_bus";
   RDomain "venus"; RDomain "vcodec0"; RDomain "vcodec1"; RLink].

Definition shared_clocks (core : venus_core) (i n : nat) : list resource :=
  map (fun j => RClk (clk_name_at (res core) j)) (seq i n).

Definition get_pm_v4_order (core : venus_core) : list resource :=
  shared_clocks core 0 (clks_num (res core)) ++ v4_own_resources.

(** The error a resolution call stands for, if it failed: the code of an
    error pointer, or -ENODEV for a link that was not created. *)
Definition resolution_error (e : event) : option Z :=
  match e with
  | EvDevmClkGet _ p => if IS_ERR p then Some (int_of_long (PTR_ERR p)) else None
  | EvPmDomainAttach _ p => if IS_ERR p then Some (int_of_long (PTR_ERR p)) else None
  | EvDeviceLinkAdd _ _ _ p => if p =? NULL then Some (- ENODEV) else None
  | _ => None
  end.

Definition resolved (e : event) : Prop := resolution_error e = None.

Definition is_clk_get (e : event) : bool :=
  match e with EvDevmClkGet _ _ => true | _ => false end.

Definition is_link_add (e : event) : bool :=
  match e with EvDeviceLinkAdd _ _ _ _ => true | _ => false end.

(** The teardown a creation call is owed: a created link is deleted, an
    attached domain is detached; a call that created nothing is owed
    nothing. *)
Definition link_del_of (e : event) : list event :=
  match e with
  | EvDeviceLinkAdd _ _ _ l => if l =? NULL then [] else [EvDeviceLinkDel l]
  | _ => []
  end.

Definition detach_of (e : event) : list event :=
  match e with
  | EvPmDomainAttach _ pd =>
      if IS_ERR_OR_NULL pd then [] else [EvPmDomainDetach pd true]
  | _ => []
  end.

(** The calls [put] makes for given driver data. *)
Definition teardown_events (core : venus_core) : list event :=
  (if pd_dl_venus core =? NULL then [] else [EvDeviceLinkDel (pd_dl_venus core)])
  ++ (if IS_ERR_OR_NULL (pd_core core) then []
      else [EvPmDomainDetach (pd_core core) true])
  ++ (if IS_ERR_OR_NULL (pd_core0 core) then []
      else [EvPmDomainDetach (pd_core0 core) true])
  ++ (if IS_ERR_OR_NULL (pd_core1 core) then []
      else [EvPmDomainDetach (pd_core1 core) true]).

(** ** A test double

    A chip with three shared clocks. Handles are handed out by call number;
    clocks enable at once; a status register shows bit 1 from its fourth
    read on; runtime PM and device links succeed. *)
Definition demo_io : hfi_venus_io := mkIo 1032 1036 144 148 272 276.

Definition demo_hw : platform :=
  mkPlatform (fun w _ => 4096 + 16 * Z.of_nat (List.length (events w)))
             (fun _ _ => 0)
             (fun _ i _ => if (i <? 3)%nat then 0 else 2)
             (fun _ _ => 0)
             (fun _ _ => 0)
             (fun w _ => 8192 + 16 * Z.of_nat (List.length (events w)))
             (fun _ supplier _ => supplier + 1)
             0.

(** [ERR_PTR(-errno)] as a pointer value. *)
Definition ERR_PTR (errno : Z) : ptr := 2 ^ BITS_PER_LONG - errno.

(** The same chip on a board whose "vcodec0" power domain is missing, whose
    third shared clock does not enable, and whose "vcodec0" domain, once a
    handle for it exists, cannot be released. *)
Definition broken_hw : platform :=
  mkPlatform (devm_clk_get_result demo_hw)
             (fun w clk => if clk =? 4128 then - 22 else 0)
             (readl_value demo_hw)
             (fun _ _ => 0)
             (fun _ pd => if pd =? 8320 then - 16 else 0)
             (fun w name => if String.eqb name "vcodec0" then ERR_PTR ENODEV
                            else dev_pm_domain_attach_by_name_result demo_hw w name)
             (device_link_add_result demo_hw)
             0.

(** The driver data as probe leaves it: zeroed but for the device, the
    register base and the resource table. *)
Definition demo_core : venus_core :=
  mkCore 1 1000 (mkRes ["iface"; "bus"; "core"]%string 3) [0; 0; 0; 0]
         NULL NULL NULL NULL NULL NULL NULL NULL.

Definition demo_world : world := mkWorld [] [] (fun _ => O) demo_core.

(** The driver data after a complete generation-4 [get] on the demo chip. *)
Definition ready_core : venus_core :=
  mkCore 1 1000 (mkRes ["iface"; "bus"; "core"]%string 3) [4096; 4112; 4128; 0]
         4144 4160 4176 4192 8304 8320 8336 8305.

Definition ready_world : world := mkWorld [] [] (fun _ => O) ready_core.

(** ** Vocabulary of the frame properties *)

(** A program keeps a relation when, from every start, the world it ends in
    is related to the world it started in. *)
Definition keeps {A : Type} (R : world -> world -> Prop) (m : M A) : Prop :=
  forall w, R w (snd (m w)).

Definition both (R1 R2 : world -> world -> Prop) (w w' : world) : Prop :=
  R1 w w' /\ R2 w w'.

Definition same_drvdata (w w' : world) : Prop := drvdata w' = drvdata w.

Definition same_dmesg (w w' : world) : Prop := dmesg w' = dmesg w.

Definition same_counts (w w' : world) : Prop :=
  forall c, enable_count w' c = enable_count w c.

Definition counts_grow (w w' : world) : Prop :=
  forall c, (enable_count w c <= enable_count w' c)%nat.

Definition counts_shrink (w w' : world) : Prop :=
  forall c, (enable_count w' c <= enable_count w c)%nat.

(** Every call made between the two worlds is of an allowed kind. *)
Definition only_calls (allowed : event -> bool) (w w' : world) : Prop :=
  exists new, events w' = events w ++ new /\ forallb allowed new = true.

(** The calls of a power-up: domain acquire, register write and poll, clock
    enable. *)
Definition powers_up (e : event) : bool :=
  match e with
  | EvPmRuntimeGetSync _ _ | EvWritel _ _ | EvReadlPoll _ _ _ _ _
  | EvClkPrepareEnable _ _ => true
  | _ => false
  end.

(** The calls of a power-down: domain release, register write and poll,
    clock disable. *)
Definition powers_down (e : event) : bool :=
  match e with
  | EvPmRuntimePutSync _ _ | EvWritel _ _ | EvReadlPoll _ _ _ _ _
  | EvClkDisableUnprepare _ => true
  | _ => false
  end.

(** The calls that resolve a resource, and the calls that give one back. *)
Definition resolves (e : event) : bool :=
  match e with
  | EvDevmClkGet _ _ | EvPmDomainAttach _ _ | EvDeviceLinkAdd _ _ _ _ => true
  | _ => false
  end.

Definition gives_back (e : event) : bool :=
  match e with
  | EvDeviceLinkDel _ | EvPmDomainDetach _ _ => true
  | _ => false
  end.

Definition is_clk_call (e : event) : bool :=
  match e with
  | EvClkPrepareEnable _ _ | EvClkDisableUnprepare _ => true
  | _ => false
  end.

(** [1] when the clock [c] is the clock [c'], else [0]. *)
Definition hit (c c' : ptr) : nat := if c =? c' then 1%nat else 0%nat.

(** The three link flags of generation 4. *)
Definition v4_link_flags : Z :=
  Z.lor (Z.lor DL_FLAG_PM_RUNTIME DL_FLAG_STATELESS) DL_FLAG_RPM_ACTIVE.

(** What a power-up keeps: it only makes power-up calls, lowers no enable
    count, and leaves the driver data and the kernel log alone. *)
Definition up_frame : world -> world -> Prop :=
  both (only_calls powers_up) (both counts_grow (both same_drvdata same_dmesg)).

(** What a power-down keeps: it only makes power-down calls, raises no enable
    count, and leaves the driver data alone. *)
Definition down_frame : world -> world -> Prop :=
  both (only_calls powers_down) (both counts_shrink same_drvdata).

(** What a [get] keeps: it only makes resolving calls and touches no enable
    count. *)
Definition get_frame : world -> world -> Prop :=
  both (only_calls resolves) same_counts.

(** What a [put] keeps: it only gives resources back and leaves the enable
    counts, the driver data and the kernel log alone. *)
Definition put_frame : world -> world -> Prop :=
  both (only_calls gives_back) (both same_counts (both same_drvdata same_dmesg)).

(** The calls of a runtime power transition, in either direction. *)
Definition runtime_call (e : event) : bool := powers_up e || powers_down e.

(** What every power operation keeps: it only makes runtime calls and leaves
    the driver data alone. *)
Definition power_frame : world -> world -> Prop :=
  both (only_calls runtime_call) same_drvdata.

(** What the clock set manager keeps: it only makes clock calls and leaves
    the driver data and the kernel log alone. *)
Definition clk_frame : world -> world -> Prop :=
  both (only_calls is_clk_call) (both same_drvdata same_dmesg).

(** The lookup of the clock named [res->clks[j]] that returned [p]. *)
Definition clk_get_at (core : venus_core) (jp : nat * ptr) : event :=
  EvDevmClkGet (clk_name_at (res core) (fst jp)) (snd jp).

(** A device link call that created no link. *)
Definition link_failed (e : event) : bool :=
  match e with
  | EvDeviceLinkAdd _ _ _ p => p =? NULL
  | _ => false
  end.

(** * Verification *)

(** ** Projections of an updated world *)

Lemma events_log e w : events (log e w) = events w ++ [e].
Proof. reflexivity. Qed.

Lemma events_clk_settle r c w : events (clk_settle r c w) = events w.
Proof. unfold clk_settle. destruct (r =? 0); reflexivity. Qed.

Lemma dmesg_clk_settle r c w : dmesg (clk_settle r c w) = dmesg w.
Proof. unfold clk_settle. destruct (r =? 0); reflexivity. Qed.

Lemma drvdata_clk_settle r c w : drvdata (clk_settle r c w) = drvdata w.
Proof. unfold clk_settle. destruct (r =? 0); reflexivity. Qed.

Create Rewrite HintDb world.
#[local] Hint Rewrite events_log events_clk_settle dmesg_clk_settle
  drvdata_clk_settle : world.

(** ** Bits and error pointers *)

Lemma land_BIT1_testbit (val : Z) :
  (Z.land val (BIT 1) =? 0) = negb (Z.testbit val 1).
Proof.
  assert (H : Z.land val (BIT 1) = if Z.testbit val 1 then 2 else 0).
  { apply Z.bits_inj'. intros n Hn.
    rewrite Z.land_spec. change (BIT 1) with (2 ^ 1).
    rewrite Z.pow2_bits_eqb by lia.
    destruct (Z.eqb_spec 1 n) as [<- | Hne].
    - rewrite andb_true_r. destruct (Z.testbit val 1); reflexivity.
    - rewrite andb_false_r.
      destruct (Z.testbit val 1).
      + change 2 with (2 ^ 1). rewrite Z.pow2_bits_eqb by lia.
        symmetry. apply Z.eqb_neq. exact Hne.
      + symmetry. apply Z.bits_0. }
  rewrite H. destruct (Z.testbit val 1); reflexivity.
Qed.

Lemma wrap_ptr_range (z : Z) : 0 <= wrap_ptr z < 2 ^ BITS_PER_LONG.
Proof. unfold wrap_ptr. apply Z.mod_pos_bound. reflexivity. Qed.

(** The error code of an error pointer is one of -4095 .. -1. *)
Lemma PTR_ERR_of_IS_ERR (p : ptr) :
  0 <= p < 2 ^ BITS_PER_LONG -> IS_ERR p = true ->
  int_of_long (PTR_ERR p) = p - 2 ^ BITS_PER_LONG /\
  - MAX_ERRNO <= int_of_long (PTR_ERR p) <= -1.
Proof.
  unfold IS_ERR, IS_ERR_VALUE, PTR_ERR, long_of_ptr, int_of_long, BITS_PER_LONG, MAX_ERRNO.
  intros Hr He. apply Z.leb_le in He.
  destruct (Z.ltb_spec p (2 ^ (64 - 1))) as [Hlt | Hge].
  - exfalso. change (2 ^ (64 - 1)) with 9223372036854775808 in Hlt.
    change (2 ^ 64) with 18446744073709551616 in He. lia.
  - change (2 ^ 64) with 18446744073709551616 in *.
    change (2 ^ 31) with 2147483648. change (2 ^ 32) with 4294967296.
    assert (E : (p - 18446744073709551616 + 2147483648) mod 4294967296
                = p - 18446744073709551616 + 2147483648).
    { apply Z.mod_small. lia. }
    rewrite E. lia.
Qed.

(** ** The bounded poll *)

Lemma poll_loop_spec (read : nat -> Z) (cond : Z -> bool) (polls i : nat) :
  exists n : nat,
    fst (poll_loop read cond polls i) = map read (seq i n) /\
    (n <= polls)%nat /\
    (forall j, (S j < n)%nat -> cond (read (i + j)%nat) = false) /\
    ((snd (poll_loop read cond polls i) = 0 /\ (1 <= n)%nat /\
      cond (read (i + (n - 1))%nat) = true)
     \/
     (snd (poll_loop read cond polls i) = - ETIMEDOUT /\ n = polls /\
      forall j, (j < polls)%nat -> cond (read (i + j)%nat) = false)).
Proof.
  revert i. induction polls as [| polls IH]; intros i; simpl.
  - exists O. split; [reflexivity |]. split; [lia |]. split; [intros; lia |].
    right. split; [reflexivity |]. split; [reflexivity | intros; lia].
  - destruct (cond (read i)) eqn:Hc.
    + exists 1%nat. simpl. split; [reflexivity |]. split; [lia |].
      split; [intros; lia |].
      left. split; [reflexivity |]. split; [lia |].
      now rewrite Nat.add_0_r.
    + destruct (IH (S i)) as (n & Hv & Hn & Hbefore & Hend).
      destruct (poll_loop read cond polls (S i)) as [vals r]. simpl in *.
      exists (S n). simpl. split; [now rewrite Hv |]. split; [lia |].
      split.
      * intros j Hj. destruct j as [| j].
        -- now rewrite Nat.add_0_r.
        -- rewrite Nat.add_succ_r. apply Hbefore. lia.
      * destruct Hend as [(Hr & Hn1 & Hlast) | (Hr & Hnp & Hall)].
        -- left. split; [exact Hr |]. split; [lia |].
           rewrite Nat.sub_0_r.
           replace (i + n)%nat with (S (i + (n - 1)))%nat by lia. exact Hlast.
        -- right. split; [exact Hr |]. split; [lia |].
           intros j Hj. destruct j as [| j].
           ++ now rewrite Nat.add_0_r.
           ++ rewrite Nat.add_succ_r. apply Hall. lia.
Qed.

Lemma poll_loop_ext (read : nat -> Z) (c1 c2 : Z -> bool) :
  (forall v, c1 v = c2 v) ->
  forall polls i, poll_loop read c1 polls i = poll_loop read c2 polls i.
Proof.
  intros H. induction polls as [| polls IH]; intros i; simpl.
  - reflexivity.
  - rewrite H, IH. reflexivity.
Qed.

Section Handshake.

Variable hw : platform.
Variable io : hfi_venus_io.

(** The handshake is one write of the control register followed by one
    bounded poll of the status register. *)
Lemma vcodec_power_control_v4_run core coreid enable w :
  let w1 := log (EvWritel (ctrl_value enable) (v4_ctrl io core coreid)) w in
  let pr := poll_loop (fun i => readl_value hw w1 i (v4_stat io core coreid))
                      (status_reached enable) (100 / 1) 0 in
  vcodec_power_control_v4 hw io core coreid enable w =
  (snd pr, log (EvReadlPoll (v4_stat io core coreid) 1 100 (fst pr) (snd pr)) w1).
Proof.
  unfold vcodec_power_control_v4, v4_ctrl, v4_stat.
  assert (Ht : forall v, negb (Z.land v (BIT 1) =? 0) = status_reached true v).
  { intros v. unfold status_reached. rewrite land_BIT1_testbit.
    destruct (Z.testbit v 1); reflexivity. }
  assert (Hf : forall v, (Z.land v (BIT 1) =? 0) = status_reached false v).
  { intros v. unfold status_reached. rewrite land_BIT1_testbit.
    destruct (Z.testbit v 1); reflexivity. }
  destruct (coreid =? VIDC_CORE_ID_1); destruct enable; cbv zeta;
    unfold bind, writel, readl_poll_timeout, pure, ctrl_value;
    first [ rewrite (poll_loop_ext _ _ _ Ht) | rewrite (poll_loop_ext _ _ _ Hf) ];
    match goal with
    | |- context [poll_loop ?rd ?c ?n 0] =>
        destruct (poll_loop rd c n 0) as [vals r]
    end; simpl; destruct (r =? 0) eqn:E; simpl; try reflexivity;
    apply Z.eqb_eq in E; subst r; reflexivity.
Qed.

(** C6. The v4 handshake writes the control bit and then polls the status
    register with an interval of 1 microsecond and a timeout of 100
    microseconds, that is 100 / 1 reads at most. It returns 0 exactly when one of these
    reads shows the status bit at the requested value, and it stops at the
    first such read; otherwise it returns the timeout error after all
    100 / 1 reads. For a status source that never changes, and does not show
    the requested value, it returns the timeout after exactly 100 / 1 reads. *)
Theorem vcodec_power_control_v4_polls core coreid enable w :
  let ctrl := v4_ctrl io core coreid in
  let stat := v4_stat io core coreid in
  let w1 := log (EvWritel (ctrl_value enable) ctrl) w in
  let read i := readl_value hw w1 i stat in
  let reached i := status_reached enable (read i) in
  let polls := (100 / 1)%nat in
  let run := vcodec_power_control_v4 hw io core coreid enable w in
  exists n : nat,
    events (snd run) =
      events w ++ [EvWritel (ctrl_value enable) ctrl;
                   EvReadlPoll stat 1 100 (map read (seq 0 n)) (fst run)] /\
    (n <= polls)%nat /\
    (fst run = 0 <-> exists i, (i < polls)%nat /\ reached i = true) /\
    (fst run = 0 ->
       (1 <= n)%nat /\ reached (n - 1)%nat = true /\
       forall j, (S j < n)%nat -> reached j = false) /\
    (fst run <> 0 -> fst run = - ETIMEDOUT /\ n = polls) /\
    ((forall i, read i = read O) -> reached O = false ->
       fst run = - ETIMEDOUT /\ n = polls).
Proof.
  intros ctrl stat w1 read reached polls run.
  subst run. rewrite vcodec_power_control_v4_run. cbv zeta.
  fold ctrl stat w1. fold read.
  destruct (poll_loop_spec read (status_reached enable) (100 / 1) 0)
    as (n & Hv & Hn & Hbefore & Hend).
  destruct (poll_loop read (status_reached enable) (100 / 1) 0) as [vals r].
  simpl in Hv, Hend |- *. subst vals.
  exists n. split.
  { rewrite <- app_assoc. reflexivity. }
  split; [exact Hn |].
  destruct Hend as [(Hr & Hn1 & Hlast) | (Hr & Hnp & Hall)].
  - subst r. split; [| split; [| split]].
    + split; [| reflexivity]. intros _. exists (n - 1)%nat.
      split; [fold polls; lia | exact Hlast].
    + intros _. split; [exact Hn1 |]. split; [exact Hlast |].
      intros j Hj. apply (Hbefore j Hj).
    + intros H. now elim H.
    + intros Hconst Hnot. exfalso.
      unfold reached in Hnot. rewrite <- (Hconst (n - 1)%nat) in Hnot.
      simpl in Hlast. congruence.
  - subst r. split; [| split; [| split]].
    + split; [discriminate |]. intros (i & Hi & Hri).
      exfalso. specialize (Hall i Hi). simpl in Hall.
      unfold reached in Hri. congruence.
    + discriminate.
    + intros _. split; [reflexivity | exact Hnp].
    + intros _ _. split; [reflexivity | exact Hnp].
Qed.

End Handshake.

(** ** Clock set manager *)

Lemma occurrences_snoc core i n c :
  occurrences core i (S n) c =
  (occurrences core i n c + if Z.eqb c (clk_at core (i + n)) then 1 else 0)%nat.
Proof.
  unfold occurrences. rewrite seq_S, map_app, count_occ_app. simpl.
  destruct (Z.eq_dec (clk_at core (i + n)) c) as [E | E];
    destruct (Z.eqb_spec c (clk_at core (i + n))); try reflexivity;
    exfalso; congruence.
Qed.

Lemma occurrences_cons core i n c :
  occurrences core i (S n) c =
  ((if Z.eqb c (clk_at core i) then 1 else 0) + occurrences core (S i) n c)%nat.
Proof.
  unfold occurrences. simpl.
  destruct (Z.eq_dec (clk_at core i) c) as [E | E];
    destruct (Z.eqb_spec c (clk_at core i)); try reflexivity;
    exfalso; congruence.
Qed.

Lemma clks_disable_from_spec core i w :
  let w' := snd (clks_disable_from core i w) in
  events w' = events w ++ map (disabled core) (rev (seq 0 i)) /\
  dmesg w' = dmesg w /\
  drvdata w' = drvdata w /\
  forall c, enable_count w' c = (enable_count w c - occurrences core 0 i c)%nat.
Proof.
  revert w. induction i as [| i IH]; intros w; cbv zeta.
  - simpl. rewrite app_nil_r. repeat split; auto.
    intros c. unfold occurrences. simpl. lia.
  - change (clks_disable_from core (S i) w)
      with (clks_disable_from core i
              (log (EvClkDisableUnprepare (clk_at core i))
                   (clk_count_down (clk_at core i) w))).
    destruct (IH (log (EvClkDisableUnprepare (clk_at core i))
                      (clk_count_down (clk_at core i) w)))
      as (He & Hd & Hc & Hn).
    rewrite He, Hd, Hc.
    cbn [events dmesg drvdata enable_count log clk_count_down].
    split; [| split; [reflexivity | split; [reflexivity |]]].
    + rewrite seq_S, rev_app_distr. simpl. rewrite <- app_assoc. reflexivity.
    + intros c. rewrite Hn.
      cbn [events dmesg drvdata enable_count log clk_count_down].
      rewrite occurrences_snoc. simpl.
      destruct (c =? clk_at core i); lia.
Qed.

Lemma core_clks_enable_loop_spec hw core n i w :
  let run := core_clks_enable_loop hw core n i w in
  dmesg (snd run) = dmesg w /\
  drvdata (snd run) = drvdata w /\
  match fst run with
  | None =>
      events (snd run) = events w ++ map (enabled_ok core) (seq i n) /\
      forall c, enable_count (snd run) c
                = (enable_count w c + occurrences core i n c)%nat
  | Some (r, k) =>
      r <> 0 /\ (i <= k < i + n)%nat /\
      events (snd run) =
        events w ++ map (enabled_ok core) (seq i (k - i))
                 ++ [EvClkPrepareEnable (clk_at core k) r] /\
      forall c, enable_count (snd run) c
                = (enable_count w c + occurrences core i (k - i) c)%nat
  end.
Proof.
  revert i w. induction n as [| n IH]; intros i w; cbv zeta.
  - simpl. rewrite app_nil_r.
    split; [reflexivity |]. split; [reflexivity |]. split; [reflexivity |].
    intros c. unfold occurrences. simpl. lia.
  - simpl. unfold bind, clk_prepare_enable, clk_settle.
    destruct (clk_prepare_enable_result hw w (clk_at core i) =? 0) eqn:E; simpl.
    + apply Z.eqb_eq in E. rewrite E.
      match goal with
      | |- context [core_clks_enable_loop hw core n (S i) ?w1] =>
          specialize (IH (S i) w1); cbv zeta in IH;
          destruct (core_clks_enable_loop hw core n (S i) w1) as [[[r k] |] w']
      end; simpl in IH |- *; destruct IH as (Hd & Hc & IH).
      * destruct IH as (Hr & Hk & He & Hn).
        split; [exact Hd |]. split; [exact Hc |]. split; [exact Hr |].
        split; [lia |].
        replace (k - i)%nat with (S (k - S i)) by lia.
        split.
        -- rewrite He. simpl. rewrite <- !app_assoc. reflexivity.
        -- intros c. rewrite Hn. rewrite occurrences_cons.
           destruct (Z.eqb c (clk_at core i)); lia.
      * destruct IH as (He & Hn).
        split; [exact Hd |]. split; [exact Hc |].
        split.
        -- rewrite He. simpl. rewrite <- !app_assoc. reflexivity.
        -- intros c. rewrite Hn. rewrite occurrences_cons.
           destruct (Z.eqb c (clk_at core i)); lia.
    + apply Z.eqb_neq in E.
      split; [reflexivity |]. split; [reflexivity |]. split; [exact E |].
      split; [lia |]. rewrite Nat.sub_diag. simpl.
      split; [reflexivity |].
      intros c. unfold occurrences. simpl. lia.
Qed.

(** C1. The atomic group enable. Either every enable succeeds: the clocks are
    enabled in insertion order, each clock of the set ends up enabled, and
    the result is 0. Or the enable of the clock at some index k fails: the
    clocks before k were enabled in order, then exactly the clocks [0,k) are
    disabled in reverse order, the error of clock k is returned, and the net
    effect on every enable count is nil. *)
Theorem core_clks_enable_all_or_nothing hw core w :
  let n := clks_num (res core) in
  let run := core_clks_enable hw core w in
  (fst run = 0 /\
   events (snd run) = events w ++ map (enabled_ok core) (seq 0 n) /\
   (forall c, enable_count (snd run) c
              = (enable_count w c + occurrences core 0 n c)%nat) /\
   (forall c, In c (clock_set core) -> (0 < enable_count (snd run) c)%nat))
  \/
  (exists k : nat,
     (k < n)%nat /\ fst run <> 0 /\
     events (snd run) =
       events w ++ map (enabled_ok core) (seq 0 k)
                ++ [EvClkPrepareEnable (clk_at core k) (fst run)]
                ++ map (disabled core) (rev (seq 0 k)) /\
     (forall c, enable_count (snd run) c = enable_count w c)).
Proof.
  intros n run. subst run. unfold core_clks_enable, bind.
  pose proof (core_clks_enable_loop_spec hw core n 0 w) as H. cbv zeta in H.
  fold n.
  destruct (core_clks_enable_loop hw core n 0 w) as [[[r k] |] w1];
    simpl in H; destruct H as (_ & _ & H).
  - right. destruct H as (Hr & Hk & He & Hn).
    rewrite Nat.sub_0_r in He, Hn.
    exists k. unfold bind, pure.
    destruct (clks_disable_from_spec core k w1) as (He' & _ & _ & Hn').
    destruct (clks_disable_from core k w1) as [[] w2]. simpl in *.
    split; [lia |]. split; [exact Hr |]. split.
    + rewrite He', He. rewrite <- !app_assoc. reflexivity.
    + intros c. rewrite Hn', Hn. lia.
  - left. destruct H as (He & Hn). simpl.
    split; [reflexivity |]. split; [exact He |]. split; [exact Hn |].
    intros c Hc. rewrite Hn. unfold occurrences.
    apply (count_occ_In Z.eq_dec) in Hc. unfold clock_set in Hc. fold n in Hc. lia.
Qed.

(** ** Generation 1 *)

(** C7. After a successful power(on), power(off) brings the enable count of
    every clock back to its value before the power(on). *)
Theorem core_power_v1_on_off_restores hw dev w :
  fst (core_power_v1 hw dev POWER_ON w) = 0 ->
  let w1 := snd (core_power_v1 hw dev POWER_ON w) in
  let w2 := snd (core_power_v1 hw dev POWER_OFF w1) in
  forall c, enable_count w2 c = enable_count w c.
Proof.
  intros Hon w1 w2 c. subst w2 w1.
  unfold core_power_v1, bind, dev_get_drvdata in *.
  change (POWER_ON =? POWER_ON) with true in *.
  change (POWER_OFF =? POWER_ON) with false. cbv iota in *.
  pose proof (core_clks_enable_loop_spec hw (drvdata w)
                (clks_num (res (drvdata w))) 0 w) as H. cbv zeta in H.
  unfold core_clks_enable, bind in *.
  destruct (core_clks_enable_loop hw (drvdata w) (clks_num (res (drvdata w))) 0 w)
    as [[[r k] |] w1]; simpl in H; destruct H as (_ & Hc & H).
  - exfalso. destruct H as (Hr & _). apply Hr.
    unfold bind, pure in Hon.
    destruct (clks_disable_from (drvdata w) k w1) as [[] w2]. simpl in Hon.
    exact Hon.
  - destruct H as (_ & Hn). simpl. rewrite Hc.
    unfold core_clks_disable.
    destruct (clks_disable_from_spec (drvdata w) (clks_num (res (drvdata w))) w1)
      as (_ & _ & _ & Hn').
    destruct (clks_disable_from (drvdata w) (clks_num (res (drvdata w))) w1)
      as [[] w2]. simpl in *.
    rewrite Hn', Hn. lia.
Qed.

(** ** Generation 4: power off *)

(** C2. power(off) of generation 4 runs the per-core power-off of both cores,
    then disables the whole shared clock set in reverse order whatever the
    per-core power-off returned, and returns what the per-core power-off
    returned; an error of the per-core power-off is written to the log. *)
Theorem core_power_v4_off_always_disables_clocks hw io dev w :
  let core := drvdata w in
  let off := poweroff_by_core_id hw io core dev
               (Z.lor VIDC_CORE_ID_1 VIDC_CORE_ID_2) w in
  let run := core_power_v4 hw io dev POWER_OFF w in
  fst run = fst off /\
  events (snd run) =
    events (snd off)
      ++ map (disabled core) (rev (seq 0 (clks_num (res core)))) /\
  dmesg (snd run) =
    dmesg (snd off)
      ++ (if fst off =? 0 then []
          else [("poweroff by core failed (%d)\n"%string, [ArgInt (fst off)])]) /\
  (forall c, enable_count (snd run) c
             = (enable_count (snd off) c
                - occurrences core 0 (clks_num (res core)) c)%nat).
Proof.
  intros core off run. subst run.
  unfold core_power_v4, bind, dev_get_drvdata.
  change (POWER_OFF =? POWER_ON) with false. cbv beta iota.
  change (poweroff_by_core_id hw io (drvdata w) dev
            (Z.lor VIDC_CORE_ID_1 VIDC_CORE_ID_2) w) with off.
  clearbody off. destruct off as [r w1]. subst core.
  set (core := drvdata w).
  unfold core_clks_disable, pure. cbn [fst snd].
  destruct (r =? 0) eqn:E; cbn [negb fst snd]; unfold dev_err.
  - destruct (clks_disable_from_spec core (clks_num (res core)) w1)
      as (He & Hd & _ & Hn).
    destruct (clks_disable_from core (clks_num (res core)) w1) as [[] w2].
    simpl in *. rewrite app_nil_r. repeat split; assumption.
  - match goal with
    | |- context [clks_disable_from core ?n ?w0] =>
        destruct (clks_disable_from_spec core n w0) as (He & Hd & _ & Hn);
        destruct (clks_disable_from core n w0) as [[] w2]
    end.
    simpl in *. repeat split; assumption.
Qed.

(** ** Generation 3: session power *)

(** C9. The decoder and encoder power paths of generation 3 write the
    session's control register before and after the clock operation. On
    power-on the trailing write (value 1) is made whatever the clock enable
    returned, and that result is returned; the power-off path returns 0. *)
Theorem session_power_v3_trailing_write hw io dev on w :
  let core := drvdata w in
  let dec_ctrl := base core + WRAPPER_VDEC_VCODEC_POWER_CONTROL io in
  let enc_ctrl := base core + WRAPPER_VENC_VCODEC_POWER_CONTROL io in
  let dec := vdec_power_v3 hw io dev on w in
  let enc := venc_power_v3 hw io dev on w in
  events (snd dec) =
    events w ++ [EvWritel 0 dec_ctrl;
                 (if on =? POWER_ON
                  then EvClkPrepareEnable (core0_clk core) (fst dec)
                  else EvClkDisableUnprepare (core0_clk core));
                 EvWritel 1 dec_ctrl] /\
  fst dec =
    (if on =? POWER_ON
     then clk_prepare_enable_result hw (log (EvWritel 0 dec_ctrl) w) (core0_clk core)
     else 0) /\
  events (snd enc) =
    events w ++ [EvWritel 0 enc_ctrl;
                 (if on =? POWER_ON
                  then EvClkPrepareEnable (core1_clk core) (fst enc)
                  else EvClkDisableUnprepare (core1_clk core));
                 EvWritel 1 enc_ctrl] /\
  fst enc =
    (if on =? POWER_ON
     then clk_prepare_enable_result hw (log (EvWritel 0 enc_ctrl) w) (core1_clk core)
     else 0).
Proof.
  intros core dec_ctrl enc_ctrl dec enc. subst dec enc.
  unfold vdec_power_v3, venc_power_v3, vcodec_power_control_v3,
    bind, dev_get_drvdata, writel, clk_prepare_enable, clk_settle,
    clk_disable_unprepare, pure.
  change (VIDC_SESSION_TYPE_DEC =? VIDC_SESSION_TYPE_DEC) with true.
  change (VIDC_SESSION_TYPE_ENC =? VIDC_SESSION_TYPE_DEC) with false.
  cbv iota. fold core dec_ctrl enc_ctrl.
  destruct (on =? POWER_ON); simpl.
  - repeat split.
    + destruct (clk_prepare_enable_result hw (log (EvWritel 0 dec_ctrl) w)
                  (core0_clk core) =? 0); simpl; rewrite <- !app_assoc; reflexivity.
    + destruct (clk_prepare_enable_result hw (log (EvWritel 0 enc_ctrl) w)
                  (core1_clk core) =? 0); simpl; rewrite <- !app_assoc; reflexivity.
  - repeat split; rewrite <- !app_assoc; reflexivity.
Qed.

(** ** Version strategy selector *)

(** C4. An identifier that is none of the three recognised generations
    selects the generation-1 table itself: a non-null result, equal to what
    generation 1 selects, with the clock-only [get] and [power] of
    generation 1 and no other operation. *)
Theorem venus_get_pm_ops_unknown_is_v1 hw io version :
  version <> HFI_VERSION_1XX ->
  version <> HFI_VERSION_3XX ->
  version <> HFI_VERSION_4XX ->
  venus_get_pm_ops hw io version = venus_get_pm_ops hw io HFI_VERSION_1XX /\
  venus_get_pm_ops hw io version =
    Some (mkOps (Some (core_get_pm_v1 hw)) None (Some (core_power_v1 hw))
                None None None None).
Proof.
  intros H1 H3 H4. unfold venus_get_pm_ops.
  apply Z.eqb_neq in H1, H3, H4. rewrite H1, H3, H4.
  split; reflexivity.
Qed.

Lemma venus_get_pm_ops_unknown_is_v1_witness :
  (7 <> HFI_VERSION_1XX /\ 7 <> HFI_VERSION_3XX /\ 7 <> HFI_VERSION_4XX) /\
  venus_get_pm_ops demo_hw demo_io 7 =
    venus_get_pm_ops demo_hw demo_io HFI_VERSION_1XX /\
  venus_get_pm_ops demo_hw demo_io 7 =
    Some (mkOps (Some (core_get_pm_v1 demo_hw)) None (Some (core_power_v1 demo_hw))
                None None None None).
Proof.
  split.
  - repeat split; discriminate.
  - apply (venus_get_pm_ops_unknown_is_v1 demo_hw demo_io 7); discriminate.
Defined.

Lemma core_power_v1_on_off_restores_witness :
  fst (core_power_v1 demo_hw 1 POWER_ON ready_world) = 0 /\
  forall c,
    enable_count
      (snd (core_power_v1 demo_hw 1 POWER_OFF
              (snd (core_power_v1 demo_hw 1 POWER_ON ready_world)))) c
    = enable_count ready_world c.
Proof.
  split.
  - reflexivity.
  - apply (core_power_v1_on_off_restores demo_hw 1 ready_world). reflexivity.
Defined.

(** ** Per-core power sequencer *)

Section Sequencer.

Variable hw : platform.
Variable io : hfi_venus_io.

(** One handshake call of a run held in hypothesis [H]: it is replaced by
    its write and its poll, and the outcome of the poll gets names. *)
Ltac handshake_step H :=
  rewrite vcodec_power_control_v4_run in H; cbv zeta in H;
  match type of H with
  | context [poll_loop ?rd ?c ?n 0] =>
      let vals := fresh "vals" in
      let r := fresh "r" in
      destruct (poll_loop rd c n 0) as [vals r]
  end;
  cbn [fst snd] in H.

(** The result of a service call of the run in [H] gets the name [r]. *)
Ltac name_result H f r :=
  match type of H with
  | context [f hw ?w0 ?x] => set (r := f hw w0 x) in H; clearbody r
  end.

(** The log of a branch of the power-on analysis. *)
Ltac on_log :=
  cbn [fst snd]; autorewrite with world;
  unfold core_on_events, handshake; rewrite <- ?app_assoc; cbn [app];
  reflexivity.

Ltac zfacts :=
  repeat match goal with
         | E : negb _ = true |- _ => apply negb_true_iff in E
         | E : negb _ = false |- _ => apply negb_false_iff in E
         | E : (_ =? _) = false |- _ => apply Z.eqb_neq in E
         | E : (_ =? _) = true |- _ => apply Z.eqb_eq in E
         | E : (_ <? _) = true |- _ => apply Z.ltb_lt in E
         | E : (_ <? _) = false |- _ => apply Z.ltb_ge in E
         end.

(** A branch that stops inside a core's sequence, at the step [stop]. *)
Ltac stops_with stop :=
  do 2 eexists; split; [apply stop; zfacts; lia | split; [on_log | reflexivity]].

(** C3. Power-off of both cores ends in one of four ways. (1) CORE_1's assert
    handshake fails: its error is returned and nothing else is done. (2)
    CORE_1's sequence runs in the order assert, core-bus clock off, core
    clock off, de-assert, domain release, and the release fails: its error is
    returned and no CORE_2 operation is made. (3) CORE_1's sequence
    completes and CORE_2's assert handshake fails: its error is returned. (4)
    Both sequences run to their end and the result of CORE_2's release is
    returned. A failed de-assert is written to the log and the sequence goes
    on to the domain release. *)
Theorem poweroff_by_core_id_sequence core dev w :
  let run := poweroff_by_core_id hw io core dev
               (Z.lor VIDC_CORE_ID_1 VIDC_CORE_ID_2) w in
  let log1 := deassert_log "%s: power off vcodec0 failed %d\n" in
  let log2 := deassert_log "%s: power off vcodec1 failed %d\n" in
  (exists vals r,
     events (snd run) = events w ++ handshake io core VIDC_CORE_ID_1 true vals r /\
     dmesg (snd run) = dmesg w /\
     fst run = r /\ r <> 0)
  \/
  (exists va vd rd rp,
     events (snd run) =
       events w ++ core_off_events io core VIDC_CORE_ID_1 va vd rd rp /\
     dmesg (snd run) = dmesg w ++ log1 rd /\
     fst run = rp /\ rp < 0)
  \/
  (exists va vd rd rp vals r,
     events (snd run) =
       events w ++ core_off_events io core VIDC_CORE_ID_1 va vd rd rp
                ++ handshake io core VIDC_CORE_ID_2 true vals r /\
     dmesg (snd run) = dmesg w ++ log1 rd /\
     0 <= rp /\ fst run = r /\ r <> 0)
  \/
  (exists va vd rd rp va' vd' rd' rp',
     events (snd run) =
       events w ++ core_off_events io core VIDC_CORE_ID_1 va vd rd rp
                ++ core_off_events io core VIDC_CORE_ID_2 va' vd' rd' rp' /\
     dmesg (snd run) = dmesg w ++ log1 rd ++ log2 rd' /\
     0 <= rp /\ fst run = rp').
Proof.
  intros run log1 log2.
  remember run as res eqn:H. subst run.
  unfold poweroff_by_core_id in H.
  change (Z.land (Z.lor VIDC_CORE_ID_1 VIDC_CORE_ID_2) VIDC_CORE_ID_1 =? 0)
    with false in H.
  change (Z.land (Z.lor VIDC_CORE_ID_1 VIDC_CORE_ID_2) VIDC_CORE_ID_2 =? 0)
    with false in H.
  unfold bind, clk_disable_unprepare, pm_runtime_put_sync, dev_err, pure in H.
  cbv beta iota zeta in H. cbn [negb] in H.
  (* CORE_1: assert *)
  handshake_step H.
  destruct (r =? 0) eqn:Ea; cbn [negb] in H; cbv beta iota in H.
  2:{ left. apply Z.eqb_neq in Ea. subst res. exists vals, r.
      cbn [fst snd events dmesg log printk]. unfold handshake.
      rewrite <- !app_assoc. auto. }
  apply Z.eqb_eq in Ea. subst r.
  (* CORE_1: clocks off, de-assert, release *)
  handshake_step H.
  destruct (r =? 0) eqn:Ed; cbn [negb] in H; cbv beta iota in H.
  all: match type of H with
       | context [pm_runtime_put_sync_result hw ?w0 ?pd] =>
           set (rp := pm_runtime_put_sync_result hw w0 pd) in H; clearbody rp
       end.
  all: destruct (rp <? 0) eqn:Ep; cbv beta iota in H.
  1,3: right; left; apply Z.ltb_lt in Ep; subst res;
       exists vals, vals0, r, rp;
       cbn [fst snd events dmesg log printk clk_count_down];
       unfold log1, deassert_log, core_off_events, handshake; rewrite Ed;
       rewrite <- ?app_assoc, ?app_nil_r; auto.
  (* CORE_2: assert *)
  all: apply Z.ltb_ge in Ep; right; right.
  all: handshake_step H.
  all: destruct (r0 =? 0) eqn:Ea'; cbn [negb] in H; cbv beta iota in H.
  2,4: left; apply Z.eqb_neq in Ea'; subst res;
       exists vals, vals0, r, rp, vals1, r0;
       cbn [fst snd events dmesg log printk clk_count_down];
       unfold log1, deassert_log, core_off_events, handshake; rewrite Ed;
       rewrite <- ?app_assoc, ?app_nil_r; auto.
  (* CORE_2: clocks off, de-assert, release *)
  all: apply Z.eqb_eq in Ea'; subst r0; right.
  all: handshake_step H.
  all: destruct (r0 =? 0) eqn:Ed'; cbn [negb] in H; cbv beta iota in H.
  all: match type of H with
       | context [pm_runtime_put_sync_result hw ?w0 ?pd] =>
           set (rp' := pm_runtime_put_sync_result hw w0 pd) in H; clearbody rp'
       end.
  all: subst res; exists vals, vals0, r, rp, vals1, vals2, r0, rp';
       cbn [fst snd events dmesg log printk clk_count_down];
       unfold log1, log2, deassert_log, core_off_events, handshake;
       rewrite Ed, Ed';
       rewrite <- ?app_assoc, ?app_nil_r; auto.
Qed.

(** C5. Power-on of both cores ends in one of four ways. Each core's
    sequence is, in this order: domain acquire, assert handshake (write, then
    poll of the status), core clock on, core-bus clock on, de-assert handshake
    (write, then poll). (1) A step of CORE_1 before its de-assert fails: the
    calls made are the steps up to the failing one, its error is returned
    and no CORE_2 operation is made. (2) CORE_1's sequence runs to its end and
    its de-assert fails: that error is returned and no CORE_2 operation is
    made. (3) CORE_1's sequence has completed and a step of CORE_2 before its
    de-assert fails: after CORE_1's whole sequence come CORE_2's steps up to
    the failing one, whose error is returned. (4) Both sequences run to their
    end, CORE_1's before CORE_2's, and the result of CORE_2's de-assert is
    returned. *)
Theorem poweron_by_core_id_order core dev w :
  let run := poweron_by_core_id hw io core dev
               (Z.lor VIDC_CORE_ID_1 VIDC_CORE_ID_2) w in
  (exists evs r,
     core_on_stops io core VIDC_CORE_ID_1 evs r /\
     events (snd run) = events w ++ evs /\
     fst run = r)
  \/
  (exists r_pd va vd r_d,
     events (snd run) =
       events w ++ core_on_events io core VIDC_CORE_ID_1 r_pd va vd r_d /\
     0 <= r_pd /\ r_d < 0 /\ fst run = r_d)
  \/
  (exists r_pd va vd r_d evs r,
     core_on_stops io core VIDC_CORE_ID_2 evs r /\
     events (snd run) =
       events w ++ core_on_events io core VIDC_CORE_ID_1 r_pd va vd r_d ++ evs /\
     0 <= r_pd /\ 0 <= r_d /\ fst run = r)
  \/
  (exists r_pd va vd r_d r_pd' va' vd' r_d',
     events (snd run) =
       events w ++ core_on_events io core VIDC_CORE_ID_1 r_pd va vd r_d
                ++ core_on_events io core VIDC_CORE_ID_2 r_pd' va' vd' r_d' /\
     0 <= r_pd /\ 0 <= r_d /\ 0 <= r_pd' /\ fst run = r_d').
Proof.
  intros run.
  remember run as res eqn:H. subst run.
  unfold poweron_by_core_id in H.
  change (Z.land (Z.lor VIDC_CORE_ID_1 VIDC_CORE_ID_2) VIDC_CORE_ID_1 =? 0)
    with false in H.
  change (Z.land (Z.lor VIDC_CORE_ID_1 VIDC_CORE_ID_2) VIDC_CORE_ID_2 =? 0)
    with false in H.
  unfold bind, clk_prepare_enable, pm_runtime_get_sync, pure in H.
  cbv beta iota zeta in H. cbn [negb] in H.
  (* CORE_1: domain *)
  name_result H pm_runtime_get_sync_result r_pd.
  destruct (r_pd <? 0) eqn:E1; cbv beta iota in H.
  { subst res. left.
    stops_with (stops_at_acquire io core VIDC_CORE_ID_1 r_pd). }
  (* CORE_1: assert *)
  handshake_step H. rename vals into va, r into r_a.
  destruct (negb (r_a =? 0)) eqn:E2; cbv beta iota in H.
  { subst res. left.
    stops_with (stops_at_assert io core VIDC_CORE_ID_1 r_pd va r_a). }
  zfacts. subst r_a.
  (* CORE_1: core clock *)
  name_result H clk_prepare_enable_result r_clk.
  destruct (negb (r_clk =? 0)) eqn:E3; cbv beta iota in H.
  { subst res. left.
    stops_with (stops_at_core_clk io core VIDC_CORE_ID_1 r_pd va r_clk). }
  zfacts. subst r_clk.
  (* CORE_1: core-bus clock *)
  name_result H clk_prepare_enable_result r_bus.
  destruct (negb (r_bus =? 0)) eqn:E4; cbv beta iota in H.
  { subst res. left.
    stops_with (stops_at_core_bus_clk io core VIDC_CORE_ID_1 r_pd va r_bus). }
  zfacts. subst r_bus.
  (* CORE_1: de-assert *)
  handshake_step H. rename vals into vd, r into r_d.
  destruct (r_d <? 0) eqn:E5; cbv beta iota in H.
  { subst res. right; left. exists r_pd, va, vd, r_d. zfacts.
    split; [on_log | repeat split; [lia | lia]]. }
  zfacts. right; right.
  (* CORE_2: domain *)
  name_result H pm_runtime_get_sync_result r_pd'.
  destruct (r_pd' <? 0) eqn:E1'; cbv beta iota in H.
  { subst res. left. exists r_pd, va, vd, r_d.
    do 2 eexists.
    split; [apply (stops_at_acquire io core VIDC_CORE_ID_2 r_pd'); zfacts; lia |].
    split; [on_log | repeat split; lia]. }
  (* CORE_2: assert *)
  handshake_step H. rename vals into va', r into r_a'.
  destruct (negb (r_a' =? 0)) eqn:E2'; cbv beta iota in H.
  { subst res. left. exists r_pd, va, vd, r_d.
    do 2 eexists.
    split; [apply (stops_at_assert io core VIDC_CORE_ID_2 r_pd' va' r_a');
            zfacts; lia |].
    split; [on_log | repeat split; lia]. }
  zfacts. subst r_a'.
  (* CORE_2: core clock *)
  name_result H clk_prepare_enable_result r_clk'.
  destruct (negb (r_clk' =? 0)) eqn:E3'; cbv beta iota in H.
  { subst res. left. exists r_pd, va, vd, r_d.
    do 2 eexists.
    split; [apply (stops_at_core_clk io core VIDC_CORE_ID_2 r_pd' va' r_clk');
            zfacts; lia |].
    split; [on_log | repeat split; lia]. }
  zfacts. subst r_clk'.
  (* CORE_2: core-bus clock *)
  name_result H clk_prepare_enable_result r_bus'.
  destruct (negb (r_bus' =? 0)) eqn:E4'; cbv beta iota in H.
  { subst res. left. exists r_pd, va, vd, r_d.
    do 2 eexists.
    split; [apply (stops_at_core_bus_clk io core VIDC_CORE_ID_2 r_pd' va' r_bus');
            zfacts; lia |].
    split; [on_log | repeat split; lia]. }
  zfacts. subst r_bus'.
  (* CORE_2: de-assert, the end of the sequence *)
  handshake_step H. rename vals into vd', r into r_d'.
  subst res. right. exists r_pd, va, vd, r_d, r_pd', va', vd', r_d'.
  split; [on_log | repeat split; lia].
Qed.

End Sequencer.

(** ** Generation 4: get and put *)

Lemma core_put_pm_v4_events dev w :
  events (snd (core_put_pm_v4 dev w)) = events w ++ teardown_events (drvdata w).
Proof.
  unfold core_put_pm_v4, teardown_events, bind, dev_get_drvdata,
    device_link_del, dev_pm_domain_detach, pure.
  destruct (pd_dl_venus (drvdata w) =? NULL);
    destruct (IS_ERR_OR_NULL (pd_core (drvdata w)));
    destruct (IS_ERR_OR_NULL (pd_core0 (drvdata w)));
    destruct (IS_ERR_OR_NULL (pd_core1 (drvdata w)));
    cbn [negb fst snd events log app];
    rewrite <- ?app_assoc, ?app_nil_r; reflexivity.
Qed.

Lemma clk_gets_no_teardown (evs : list event) :
  forallb is_clk_get evs = true ->
  existsb is_link_add evs = false /\
  flat_map link_del_of evs = [] /\
  flat_map detach_of evs = [].
Proof.
  induction evs as [| e evs IH]; simpl; intros H.
  - auto.
  - apply andb_true_iff in H. destruct H as [He H].
    destruct (IH H) as (H1 & H2 & H3).
    destruct e; try discriminate He. simpl. rewrite H1, H2, H3. auto.
Qed.

Section GetPm.

Variable hw : platform.

(** The shared clocks are resolved in the order of the resource table, up to
    the first that fails; only [core->clks] changes in the driver data. *)
Lemma core_clks_get_loop_spec core n i w :
  let run := core_clks_get_loop hw core n i w in
  exists evs : list event,
    events (snd run) = events w ++ evs /\
    dmesg (snd run) = dmesg w /\
    (List.length evs <= n)%nat /\
    map resource_of evs = shared_clocks core i (List.length evs) /\
    forallb is_clk_get evs = true /\
    (pd_core (drvdata (snd run)) = pd_core (drvdata w) /\
     pd_core0 (drvdata (snd run)) = pd_core0 (drvdata w) /\
     pd_core1 (drvdata (snd run)) = pd_core1 (drvdata w) /\
     pd_dl_venus (drvdata (snd run)) = pd_dl_venus (drvdata w)) /\
    match fst run with
    | None => List.length evs = n /\ Forall resolved evs
    | Some err =>
        err <> 0 /\
        exists done e, evs = done ++ [e] /\ Forall resolved done /\
                       resolution_error e = Some err
    end.
Proof.
  revert i w. induction n as [| n IH]; intros i w; cbv zeta.
  - exists []. simpl. rewrite app_nil_r. repeat split; auto.
  - simpl. unfold bind, devm_clk_get, set_drvdata.
    set (p := wrap_ptr (devm_clk_get_result hw w (clk_name_at (res core) i))).
    pose proof (wrap_ptr_range (devm_clk_get_result hw w (clk_name_at (res core) i)))
      as Hp. fold p in Hp. clearbody p.
    cbv beta iota zeta.
    destruct (IS_ERR p) eqn:E.
    + exists [EvDevmClkGet (clk_name_at (res core) i) p].
      unfold pure. cbn [fst snd events dmesg drvdata log store set_clks_at
                          pd_core pd_core0 pd_core1 pd_dl_venus
                          List.length map resource_of forallb is_clk_get andb].
      split; [reflexivity |]. split; [reflexivity |]. split; [lia |].
      split; [reflexivity |]. split; [reflexivity |].
      split; [repeat split |].
      split.
      * destruct (PTR_ERR_of_IS_ERR p Hp E) as [_ Hr]. unfold MAX_ERRNO in Hr. lia.
      * exists [], (EvDevmClkGet (clk_name_at (res core) i) p).
        split; [reflexivity |]. split; [constructor |].
        simpl. now rewrite E.
    + match goal with
      | |- context [core_clks_get_loop hw core n (S i) ?w1] =>
          destruct (IH (S i) w1) as (evs & He & Hd & Hl & Hr & Hc & Hh & Hout);
          destruct (core_clks_get_loop hw core n (S i) w1) as [out w2]
      end.
      cbn [fst snd events dmesg drvdata log store set_clks_at
             pd_core pd_core0 pd_core1 pd_dl_venus] in *.
      exists (EvDevmClkGet (clk_name_at (res core) i) p :: evs).
      split; [rewrite He, <- app_assoc; reflexivity |].
      split; [exact Hd |].
      split; [simpl; lia |].
      split; [simpl; unfold shared_clocks in *; simpl; now rewrite Hr |].
      split; [simpl; exact Hc |].
      split; [exact Hh |].
      destruct out as [err |].
      * destruct Hout as (Herr & done & e & Hevs & Hdone & Hres).
        split; [exact Herr |].
        exists (EvDevmClkGet (clk_name_at (res core) i) p :: done), e.
        split; [now rewrite Hevs |].
        split; [| exact Hres].
        constructor; [| exact Hdone]. unfold resolved. simpl. now rewrite E.
      * destruct Hout as (Hlen & Hall).
        split; [simpl; now rewrite Hlen |].
        constructor; [| exact Hall]. unfold resolved. simpl. now rewrite E.
Qed.

(** The pointer a resolution call of the run in [H] returns gets the name
    [p], and [Hp] says it is a 64-bit word. *)
Ltac name_ptr H f p Hp :=
  match type of H with
  | context [wrap_ptr (f hw ?w0 ?x)] =>
      pose proof (wrap_ptr_range (f hw w0 x)) as Hp;
      set (p := wrap_ptr (f hw w0 x)) in *; clearbody p
  end.

(** Every call made before the failing one resolved its resource. *)
Ltac resolved_all Hall :=
  repeat (apply Forall_app; split); try exact Hall;
  repeat constructor; unfold resolved; cbn [resolution_error];
  repeat match goal with
         | E : IS_ERR ?p = false |- context [IS_ERR ?p] => rewrite E
         | E : (?p =? NULL) = false |- context [?p =? NULL] => rewrite E
         end;
  reflexivity.

(** The whole of generation 4's [get]: which calls it makes, where it stops,
    what it returns, and what it leaves in the driver data for [put]. *)
Lemma core_get_pm_v4_outcome dev w :
  let run := core_get_pm_v4 hw dev w in
  exists (new : list event) (rest : list resource),
    events (snd run) = events w ++ new /\
    map resource_of new ++ rest = get_pm_v4_order (drvdata w) /\
    ((fst run = 0 /\ rest = [] /\ Forall resolved new)
     \/
     (fst run <> 0 /\
      exists done e, new = done ++ [e] /\ Forall resolved done /\
                     resolution_error e = Some (fst run))) /\
    (rest <> [] ->
       existsb is_link_add new = false /\
       pd_dl_venus (drvdata (snd run)) = pd_dl_venus (drvdata w)) /\
    (pd_core (drvdata w) = NULL -> pd_core0 (drvdata w) = NULL ->
     pd_core1 (drvdata w) = NULL -> pd_dl_venus (drvdata w) = NULL ->
     teardown_events (drvdata (snd run))
     = flat_map link_del_of new ++ flat_map detach_of new).
Proof.
  intros run. remember run as result eqn:H. subst run.
  unfold core_get_pm_v4, core_clks_get, bind, dev_get_drvdata, devm_clk_get,
    dev_pm_domain_attach_by_name, device_link_add, set_drvdata, dev_err, pure in H.
  cbv beta iota zeta in H.
  destruct (core_clks_get_loop_spec (drvdata w) (clks_num (res (drvdata w))) 0 w)
    as (evs & Hev & _ & Hlen & Hres & Hclk & (Hh & Hh0 & Hh1 & Hdl) & Hout).
  destruct (clk_gets_no_teardown evs Hclk) as (Hnl & Hld & Hdt).
  destruct (core_clks_get_loop hw (drvdata w) (clks_num (res (drvdata w))) 0 w)
    as [out w1].
  cbn [fst snd] in *.
  destruct out as [err |].
  { destruct Hout as (Herr & done & e & Hevs & Hdone & Herrof).
    apply Z.eqb_neq in Herr. rewrite Herr in H. cbn [negb] in H.
    apply Z.eqb_neq in Herr. subst result. cbn [fst snd].
    exists evs, (shared_clocks (drvdata w) (List.length evs)
                   (clks_num (res (drvdata w)) - List.length evs)
                 ++ v4_own_resources).
    split; [exact Hev |].
    split.
    { rewrite Hres. unfold get_pm_v4_order, shared_clocks.
      rewrite app_assoc, <- map_app, <- seq_app.
      replace (List.length evs + (clks_num (res (drvdata w)) - List.length evs))%nat
        with (clks_num (res (drvdata w))) by lia.
      reflexivity. }
    split.
    { right. split; [exact Herr |]. exists done, e. auto. }
    split.
    { intros _. split; [exact Hnl | exact Hdl]. }
    intros Z1 Z2 Z3 Z4. unfold teardown_events.
    rewrite Hh, Hh0, Hh1, Hdl, Z1, Z2, Z3, Z4, Hld, Hdt. reflexivity. }
  destruct Hout as (Hn & Hall). change (0 =? 0) with true in H. cbn [negb] in H.
  (* the two per-core clock pairs *)
  name_ptr H devm_clk_get_result p1 Hp1.
  destruct (IS_ERR p1) eqn:E1; cbv beta iota in H.
  2: name_ptr H devm_clk_get_result p2 Hp2.
  2: destruct (IS_ERR p2) eqn:E2; cbv beta iota in H.
  3: name_ptr H devm_clk_get_result p3 Hp3.
  3: destruct (IS_ERR p3) eqn:E3; cbv beta iota in H.
  4: name_ptr H devm_clk_get_result p4 Hp4.
  4: destruct (IS_ERR p4) eqn:E4; cbv beta iota in H.
  (* the three power domains *)
  5: name_ptr H dev_pm_domain_attach_by_name_result p5 Hp5.
  5: destruct (IS_ERR p5) eqn:E5; cbv beta iota in H.
  6: name_ptr H dev_pm_domain_attach_by_name_result p6 Hp6.
  6: destruct (IS_ERR p6) eqn:E6; cbv beta iota in H.
  7: name_ptr H dev_pm_domain_attach_by_name_result p7 Hp7.
  7: destruct (IS_ERR p7) eqn:E7; cbv beta iota in H.
  (* the device link *)
  8: match type of H with
     | context [wrap_ptr (device_link_add_result hw ?w0 ?x ?y)] =>
         set (p8 := wrap_ptr (device_link_add_result hw w0 x y)) in *; clearbody p8
     end.
  8: destruct (p8 =? NULL) eqn:E8; cbv beta iota in H.
  all: subst result;
    cbn [fst snd events dmesg drvdata log store printk set_core0_clk set_core0_bus_clk
           set_core1_clk set_core1_bus_clk set_pd_core set_pd_core0 set_pd_core1
           set_pd_dl_venus pd_core pd_core0 pd_core1 pd_dl_venus].
  all: rewrite Hev, <- ?app_assoc.
  all: do 2 eexists; split; [reflexivity |].
  all: split;
    [ rewrite ?map_app, Hres, Hn; unfold get_pm_v4_order;
      rewrite <- ?app_assoc; apply f_equal; reflexivity |].
  all: split; [| split].
  (* the outcome *)
  1,4,7,10,13,16,19,22,25:
    first
      [ left; split; [reflexivity |]; split; [reflexivity |]; resolved_all Hall
      | right; split;
        [ first
            [ discriminate
            | match goal with
              | E : IS_ERR ?p = true, Hp : 0 <= ?p < _ |- _ =>
                  destruct (PTR_ERR_of_IS_ERR p Hp E) as [_ Hr];
                  unfold MAX_ERRNO in Hr; lia
              end ]
        | do 2 eexists; split; [rewrite ?app_assoc; reflexivity |]; split;
          [ resolved_all Hall
          | cbn [resolution_error];
            match goal with
            | E : IS_ERR _ = true |- _ => rewrite E
            | E : (_ =? NULL) = true |- _ => rewrite E
            end; reflexivity ] ] ].
  (* no link before the last step *)
  1,3,5,7,9,11,13,15,17:
    intros Hne;
    first [ exfalso; apply Hne; reflexivity
          | split; [rewrite ?existsb_app, Hnl; reflexivity | exact Hdl] ].
  (* what is left for put *)
  all: intros Z1 Z2 Z3 Z4; unfold teardown_events;
    cbn [set_core0_clk set_core0_bus_clk set_core1_clk set_core1_bus_clk
           set_pd_core set_pd_core0 set_pd_core1 set_pd_dl_venus
           pd_core pd_core0 pd_core1 pd_dl_venus];
    rewrite ?Hh, ?Hh0, ?Hh1, ?Hdl, ?Z1, ?Z2, ?Z3, ?Z4;
    rewrite ?flat_map_app, ?Hld, ?Hdt;
    cbn [flat_map link_del_of detach_of app];
    change (IS_ERR_OR_NULL NULL) with true; change (NULL =? NULL) with true;
    repeat match goal with
           | E : (?p =? NULL) = _ |- context [?p =? NULL] => rewrite E
           | |- context [IS_ERR_OR_NULL ?p] => destruct (IS_ERR_OR_NULL p)
           end;
    reflexivity.
Qed.

(** C8. Generation 4's [get] resolves its resources in one fixed order: the
    shared clock set, the two per-core clock pairs, the shared power domain,
    the two per-core power domains, the device link. The calls it makes are
    an initial part of that order. Either all of them resolve and it returns
    0, or the last call made is the first that fails and its error is what
    [get] returns, nothing after it being attempted. When it stops before the
    last step, no device link call is made and the link of the driver data is
    left as it was. *)
Theorem core_get_pm_v4_stops_at_first_failure dev w :
  let run := core_get_pm_v4 hw dev w in
  exists (new : list event) (rest : list resource),
    events (snd run) = events w ++ new /\
    map resource_of new ++ rest = get_pm_v4_order (drvdata w) /\
    ((fst run = 0 /\ rest = [] /\ Forall resolved new)
     \/
     (fst run <> 0 /\
      exists done e, new = done ++ [e] /\ Forall resolved done /\
                     resolution_error e = Some (fst run))) /\
    (rest <> [] ->
       existsb is_link_add new = false /\
       pd_dl_venus (drvdata (snd run)) = pd_dl_venus (drvdata w)).
Proof.
  intros run.
  destruct (core_get_pm_v4_outcome dev w) as (new & rest & H1 & H2 & H3 & H4 & _).
  exists new, rest.
  split; [exact H1 |]. split; [exact H2 |]. split; [exact H3 | exact H4].
Qed.

(** C10. [put] deletes the device link only when the link pointer is not
    null, and detaches each of the three power domains only when its handle
    is neither null nor an error pointer. Hence, on driver data whose handles
    start out null, a [put] that follows a [get], complete or not, tears
    down exactly what that [get] created: the link if it was created, and
    the domains that were attached, in the order venus, vcodec0, vcodec1. *)
Theorem core_put_pm_v4_only_created dev w :
  pd_core (drvdata w) = NULL ->
  pd_core0 (drvdata w) = NULL ->
  pd_core1 (drvdata w) = NULL ->
  pd_dl_venus (drvdata w) = NULL ->
  let get := core_get_pm_v4 hw dev w in
  let put := core_put_pm_v4 dev (snd get) in
  (forall w0 : world,
     events (snd (core_put_pm_v4 dev w0))
     = events w0 ++ teardown_events (drvdata w0)) /\
  exists new : list event,
    events (snd get) = events w ++ new /\
    events (snd put)
    = events (snd get) ++ flat_map link_del_of new ++ flat_map detach_of new.
Proof.
  intros Z1 Z2 Z3 Z4 get put.
  split; [intros w0; apply core_put_pm_v4_events |].
  destruct (core_get_pm_v4_outcome dev w) as (new & rest & H1 & _ & _ & _ & H5).
  exists new. split; [exact H1 |].
  subst put. rewrite core_put_pm_v4_events. fold get.
  f_equal. apply H5; assumption.
Qed.

End GetPm.

Lemma core_put_pm_v4_only_created_witness :
  (pd_core (drvdata demo_world) = NULL /\
   pd_core0 (drvdata demo_world) = NULL /\
   pd_core1 (drvdata demo_world) = NULL /\
   pd_dl_venus (drvdata demo_world) = NULL) /\
  (let get := core_get_pm_v4 broken_hw 1 demo_world in
   let put := core_put_pm_v4 1 (snd get) in
   (forall w0 : world,
      events (snd (core_put_pm_v4 1 w0))
      = events w0 ++ teardown_events (drvdata w0)) /\
   exists new : list event,
     events (snd get) = events demo_world ++ new /\
     events (snd put)
     = events (snd get) ++ flat_map link_del_of new ++ flat_map detach_of new).
Proof.
  split.
  - repeat split; reflexivity.
  - apply (core_put_pm_v4_only_created broken_hw 1 demo_world); reflexivity.
Defined.

(** ** Runs on the test double *)

(** On the board without the "vcodec0" domain, [get] stops at the sixth of
    its own resources with -ENODEV, makes no link call, and the [put] that
    follows detaches the one domain that was attached. *)
Example get_put_v4_on_broken_board :
  let get := core_get_pm_v4 broken_hw 1 demo_world in
  let put := core_put_pm_v4 1 (snd get) in
  fst get = - ENODEV /\
  events (snd get) =
    [EvDevmClkGet "iface" 4096; EvDevmClkGet "bus" 4112; EvDevmClkGet "core" 4128;
     EvDevmClkGet "vcodec0_core" 4144; EvDevmClkGet "vcodec0_bus" 4160;
     EvDevmClkGet "vcodec1_core" 4176; EvDevmClkGet "vcodec1_bus" 4192;
     EvPmDomainAttach "venus" 8304;
     EvPmDomainAttach "vcodec0" (ERR_PTR ENODEV)] /\
  events (snd put) = events (snd get) ++ [EvPmDomainDetach 8304 true].
Proof. vm_compute. repeat split. Qed.

(** The third shared clock does not enable: the two before it are disabled
    again, last first, and every enable count is 0 as before. *)
Example core_power_v1_on_rollback :
  let run := core_power_v1 broken_hw 1 POWER_ON ready_world in
  fst run = - 22 /\
  events (snd run) =
    [EvClkPrepareEnable 4096 0; EvClkPrepareEnable 4112 0;
     EvClkPrepareEnable 4128 (- 22);
     EvClkDisableUnprepare 4112; EvClkDisableUnprepare 4096] /\
  map (enable_count (snd run)) [4096; 4112; 4128] = [0; 0; 0]%nat.
Proof. vm_compute. repeat split. Qed.

(** Generation 4 power(off) when the release of CORE_1's domain fails: CORE_2
    is not touched, the shared clocks are disabled all the same, and the
    error of the release is returned and logged. *)
Example core_power_v4_off_release_fails :
  let run := core_power_v4 broken_hw demo_io 1 POWER_OFF ready_world in
  fst run = - 16 /\
  events (snd run) =
    [EvWritel 0 1148; EvReadlPoll 1144 1 100 [0; 0; 0; 2] 0;
     EvClkDisableUnprepare 4160; EvClkDisableUnprepare 4144;
     EvWritel 1 1148; EvReadlPoll 1144 1 100 [0] 0;
     EvPmRuntimePutSync 8320 (- 16);
     EvClkDisableUnprepare 4128; EvClkDisableUnprepare 4112;
     EvClkDisableUnprepare 4096] /\
  dmesg (snd run) = [("poweroff by core failed (%d)\n"%string, [ArgInt (- 16)])].
Proof. vm_compute. repeat split. Qed.

(** A status register stuck at 0: the assert handshake of CORE_1 gives up
    with -ETIMEDOUT after exactly 100 reads. *)
Example vcodec_power_control_v4_stuck_status :
  let stuck := mkPlatform (devm_clk_get_result demo_hw)
                          (clk_prepare_enable_result demo_hw)
                          (fun _ _ _ => 0)
                          (pm_runtime_get_sync_result demo_hw)
                          (pm_runtime_put_sync_result demo_hw)
                          (dev_pm_domain_attach_by_name_result demo_hw)
                          (device_link_add_result demo_hw) 0 in
  let run := vcodec_power_control_v4 stuck demo_io ready_core VIDC_CORE_ID_1 true
               ready_world in
  fst run = - ETIMEDOUT /\
  events (snd run) = [EvWritel 0 1148; EvReadlPoll 1144 1 100 (repeat 0 100) (- 110)].
Proof. vm_compute. repeat split. Qed.

(** * Further properties *)

(** ** Relations a program keeps *)

Section Keeps.

Variable R : world -> world -> Prop.
Hypothesis R_refl : forall w, R w w.
Hypothesis R_trans : forall w1 w2 w3, R w1 w2 -> R w2 w3 -> R w1 w3.

Lemma keeps_pure {A} (a : A) : keeps R (pure a).
Proof. intros w. apply R_refl. Qed.

Lemma keeps_bind {A B} (m : M A) (f : A -> M B) :
  keeps R m -> (forall a, keeps R (f a)) -> keeps R (bind m f).
Proof.
  intros Hm Hf w. unfold bind.
  specialize (Hm w). destruct (m w) as [a w1]. simpl in Hm.
  eapply R_trans; [exact Hm | apply Hf].
Qed.

Lemma keeps_clks_disable_from core :
  (forall c, keeps R (clk_disable_unprepare c)) ->
  forall i, keeps R (clks_disable_from core i).
Proof.
  intros Hd. induction i as [| i IH]; simpl.
  - apply keeps_pure.
  - apply keeps_bind; [apply Hd | intros _; exact IH].
Qed.

Lemma keeps_core_clks_enable_loop hw core :
  (forall c, keeps R (clk_prepare_enable hw c)) ->
  forall n i, keeps R (core_clks_enable_loop hw core n i).
Proof.
  intros He. induction n as [| n IH]; intros i; simpl.
  - apply keeps_pure.
  - apply keeps_bind; [apply He |]. intros r.
    destruct (negb (r =? 0)); [apply keeps_pure | apply IH].
Qed.

Lemma keeps_core_clks_enable hw core :
  (forall c, keeps R (clk_prepare_enable hw c)) ->
  (forall c, keeps R (clk_disable_unprepare c)) ->
  keeps R (core_clks_enable hw core).
Proof.
  intros He Hd. unfold core_clks_enable.
  apply keeps_bind; [apply keeps_core_clks_enable_loop, He |].
  intros [[r i] |]; [| apply keeps_pure].
  apply keeps_bind; [apply keeps_clks_disable_from, Hd | intros _; apply keeps_pure].
Qed.

Lemma keeps_core_clks_get hw core :
  (forall d id, keeps R (devm_clk_get hw d id)) ->
  (forall f, keeps R (set_drvdata f)) ->
  keeps R (core_clks_get hw core).
Proof.
  intros Hg Hs. unfold core_clks_get.
  apply keeps_bind.
  - generalize 0%nat. induction (clks_num (res core)) as [| n IH]; intros i; simpl.
    + apply keeps_pure.
    + apply keeps_bind; [apply Hg |]. intros p.
      apply keeps_bind; [apply Hs |]. intros _.
      destruct (IS_ERR p); [apply keeps_pure | apply IH].
  - intros [err |]; apply keeps_pure.
Qed.

End Keeps.

Lemma both_refl R1 R2 :
  (forall w, R1 w w) -> (forall w, R2 w w) -> forall w, both R1 R2 w w.
Proof. intros H1 H2 w. split; auto. Qed.

Lemma both_trans R1 R2 :
  (forall a b c, R1 a b -> R1 b c -> R1 a c) ->
  (forall a b c, R2 a b -> R2 b c -> R2 a c) ->
  forall a b c, both R1 R2 a b -> both R1 R2 b c -> both R1 R2 a c.
Proof. intros H1 H2 a b c [A1 A2] [B1 B2]. split; eauto. Qed.

Lemma same_drvdata_refl w : same_drvdata w w.
Proof. reflexivity. Qed.
Lemma same_drvdata_trans a b c : same_drvdata a b -> same_drvdata b c -> same_drvdata a c.
Proof. unfold same_drvdata. congruence. Qed.

Lemma same_dmesg_refl w : same_dmesg w w.
Proof. reflexivity. Qed.
Lemma same_dmesg_trans a b c : same_dmesg a b -> same_dmesg b c -> same_dmesg a c.
Proof. unfold same_dmesg. congruence. Qed.

Lemma same_counts_refl w : same_counts w w.
Proof. intros c. reflexivity. Qed.
Lemma same_counts_trans a b c : same_counts a b -> same_counts b c -> same_counts a c.
Proof. intros H1 H2 x. rewrite H2. apply H1. Qed.

Lemma counts_grow_refl w : counts_grow w w.
Proof. intros c. lia. Qed.
Lemma counts_grow_trans a b c : counts_grow a b -> counts_grow b c -> counts_grow a c.
Proof. intros H1 H2 x. specialize (H1 x). specialize (H2 x). lia. Qed.

Lemma counts_shrink_refl w : counts_shrink w w.
Proof. intros c. lia. Qed.
Lemma counts_shrink_trans a b c :
  counts_shrink a b -> counts_shrink b c -> counts_shrink a c.
Proof. intros H1 H2 x. specialize (H1 x). specialize (H2 x). lia. Qed.

Lemma only_calls_refl allowed w : only_calls allowed w w.
Proof. exists []. split; [now rewrite app_nil_r | reflexivity]. Qed.
Lemma only_calls_trans allowed a b c :
  only_calls allowed a b -> only_calls allowed b c -> only_calls allowed a c.
Proof.
  intros (n1 & E1 & F1) (n2 & E2 & F2). exists (n1 ++ n2). split.
  - rewrite E2, E1, app_assoc. reflexivity.
  - rewrite forallb_app, F1, F2. reflexivity.
Qed.

Lemma keeps_both_l {A} R1 R2 (m : M A) : keeps (both R1 R2) m -> keeps R1 m.
Proof. intros H w. apply H. Qed.

Lemma keeps_both_r {A} R1 R2 (m : M A) : keeps (both R1 R2) m -> keeps R2 m.
Proof. intros H w. apply H. Qed.

Lemma keeps_both {A} R1 R2 (m : M A) :
  keeps R1 m -> keeps R2 m -> keeps (both R1 R2) m.
Proof. intros H1 H2 w. split; [apply H1 | apply H2]. Qed.

(** What one kernel service does to the world, relation by relation. *)
Ltac atomic :=
  lazymatch goal with
  | |- both _ _ _ _ => split; atomic
  | |- same_drvdata _ _ =>
      unfold same_drvdata;
      cbn [drvdata log printk clk_count_up clk_count_down];
      rewrite ?drvdata_clk_settle; reflexivity
  | |- same_dmesg _ _ =>
      unfold same_dmesg;
      cbn [dmesg log store clk_count_up clk_count_down];
      rewrite ?dmesg_clk_settle; reflexivity
  | |- same_counts _ _ =>
      intros ?c; cbn [enable_count log printk store]; reflexivity
  | |- counts_grow _ _ =>
      intros ?c; unfold clk_settle, clk_count_up;
      cbn [enable_count log printk store];
      repeat (match goal with |- context [if ?b then _ else _] => destruct b end;
              cbn [enable_count]);
      lia
  | |- counts_shrink _ _ =>
      intros ?c; unfold clk_count_down;
      cbn [enable_count log printk store];
      repeat (match goal with |- context [if ?b then _ else _] => destruct b end;
              cbn [enable_count]);
      lia
  | |- only_calls _ _ _ =>
      unfold only_calls;
      cbn [events log printk store clk_count_up clk_count_down];
      rewrite ?events_clk_settle;
      first [ exists []; split; [now rewrite app_nil_r | reflexivity]
            | eexists; split; [reflexivity | reflexivity] ]
  | |- ?R _ _ => unfold R; atomic
  end.

Ltac service :=
  intros ?w;
  unfold dev_get_drvdata, dev_err, devm_clk_get, clk_prepare_enable,
    clk_disable_unprepare, writel, readl_poll_timeout, pm_runtime_get_sync,
    pm_runtime_put_sync, dev_pm_domain_attach_by_name, dev_pm_domain_detach,
    device_link_add, device_link_del, set_drvdata;
  try match goal with
      | |- context [poll_loop ?a ?b ?c ?d] => destruct (poll_loop a b c d)
      end;
  cbn [fst snd]; atomic.

(** A straight-line program keeps what its services keep; [known] closes the
    calls of functions already dealt with. *)
Ltac keeps_auto Hrefl Htrans known :=
  repeat first
    [ known
    | apply (keeps_pure _ Hrefl)
    | apply (keeps_bind _ Htrans); [| intros ?]
    | match goal with
      | |- keeps _ (if ?c then _ else _) => destruct c
      | |- keeps _ (match ?x with _ => _ end) => destruct x
      end
    | service ].

(** *** Power-up and power-down *)

Lemma up_frame_refl w : up_frame w w.
Proof.
  repeat apply both_refl; auto using only_calls_refl, counts_grow_refl,
    same_drvdata_refl, same_dmesg_refl.
Qed.

Lemma up_frame_trans a b c : up_frame a b -> up_frame b c -> up_frame a c.
Proof.
  repeat apply both_trans; eauto using only_calls_trans, counts_grow_trans,
    same_drvdata_trans, same_dmesg_trans.
Qed.

Lemma down_frame_refl w : down_frame w w.
Proof.
  repeat apply both_refl; auto using only_calls_refl, counts_shrink_refl,
    same_drvdata_refl.
Qed.

Lemma down_frame_trans a b c : down_frame a b -> down_frame b c -> down_frame a c.
Proof.
  repeat apply both_trans; eauto using only_calls_trans, counts_shrink_trans,
    same_drvdata_trans.
Qed.

Lemma vcodec_power_control_v4_up hw io core coreid enable :
  keeps up_frame (vcodec_power_control_v4 hw io core coreid enable).
Proof.
  unfold vcodec_power_control_v4.
  keeps_auto up_frame_refl up_frame_trans fail.
Qed.

Lemma vcodec_power_control_v4_down hw io core coreid enable :
  keeps down_frame (vcodec_power_control_v4 hw io core coreid enable).
Proof.
  unfold vcodec_power_control_v4.
  keeps_auto down_frame_refl down_frame_trans fail.
Qed.

Lemma poweron_by_core_id_up hw io core dev mask :
  keeps up_frame (poweron_by_core_id hw io core dev mask).
Proof.
  unfold poweron_by_core_id.
  keeps_auto up_frame_refl up_frame_trans
    ltac:(apply vcodec_power_control_v4_up).
Qed.

Lemma poweroff_by_core_id_down hw io core dev mask :
  keeps down_frame (poweroff_by_core_id hw io core dev mask).
Proof.
  unfold poweroff_by_core_id.
  keeps_auto down_frame_refl down_frame_trans
    ltac:(apply vcodec_power_control_v4_down).
Qed.

(** X1. Whatever cores the mask selects and wherever it stops, the per-core
    power-on only acquires: every call it makes is a domain acquire, a
    handshake write or poll, or a clock enable. It never disables a clock and
    never releases a domain, so nothing it did before a failure is undone;
    no enable count goes down, and the driver data and the kernel log are
    left as they were. *)
Theorem poweron_by_core_id_never_undoes hw io core dev mask w :
  let w' := snd (poweron_by_core_id hw io core dev mask w) in
  exists new : list event,
    events w' = events w ++ new /\
    forallb powers_up new = true /\
    (forall c, ~ In (EvClkDisableUnprepare c) new) /\
    (forall pd r, ~ In (EvPmRuntimePutSync pd r) new) /\
    (forall c, (enable_count w c <= enable_count w' c)%nat) /\
    drvdata w' = drvdata w /\
    dmesg w' = dmesg w.
Proof.
  intros w'. subst w'.
  destruct (poweron_by_core_id_up hw io core dev mask w)
    as ((new & He & Hf) & Hc & Hd & Hm).
  exists new. split; [exact He |]. split; [exact Hf |].
  split; [| split; [| split; [exact Hc | split; [exact Hd | exact Hm]]]].
  - intros c Hin. rewrite forallb_forall in Hf. apply Hf in Hin. discriminate.
  - intros pd r Hin. rewrite forallb_forall in Hf. apply Hf in Hin. discriminate.
Qed.

(** X2. Whatever cores the mask selects and wherever it stops, the per-core
    power-off only releases: every call is a handshake write or poll, a clock
    disable or a domain release. It never enables a clock and never acquires
    a domain; no enable count goes up, and the driver data is left as it
    was. *)
Theorem poweroff_by_core_id_never_powers_up hw io core dev mask w :
  let w' := snd (poweroff_by_core_id hw io core dev mask w) in
  exists new : list event,
    events w' = events w ++ new /\
    forallb powers_down new = true /\
    (forall c r, ~ In (EvClkPrepareEnable c r) new) /\
    (forall pd r, ~ In (EvPmRuntimeGetSync pd r) new) /\
    (forall c, (enable_count w' c <= enable_count w c)%nat) /\
    drvdata w' = drvdata w.
Proof.
  intros w'. subst w'.
  destruct (poweroff_by_core_id_down hw io core dev mask w)
    as ((new & He & Hf) & Hc & Hd).
  exists new. split; [exact He |]. split; [exact Hf |].
  split; [| split; [| split; [exact Hc | exact Hd]]].
  - intros c r Hin. rewrite forallb_forall in Hf. apply Hf in Hin. discriminate.
  - intros pd r Hin. rewrite forallb_forall in Hf. apply Hf in Hin. discriminate.
Qed.

(** *** The power operations of the three tables *)

Lemma power_frame_refl w : power_frame w w.
Proof. apply both_refl; auto using only_calls_refl, same_drvdata_refl. Qed.

Lemma power_frame_trans a b c : power_frame a b -> power_frame b c -> power_frame a c.
Proof. apply both_trans; eauto using only_calls_trans, same_drvdata_trans. Qed.

Ltac power_known hw :=
  first
    [ apply (keeps_core_clks_enable _ power_frame_refl power_frame_trans hw)
    | apply (keeps_clks_disable_from _ power_frame_refl power_frame_trans) ];
  intros ?; service.

Lemma core_power_v1_frame hw dev on : keeps power_frame (core_power_v1 hw dev on).
Proof.
  unfold core_power_v1, core_clks_disable.
  keeps_auto power_frame_refl power_frame_trans ltac:(power_known hw).
Qed.

Lemma vdec_power_v3_frame hw io dev on : keeps power_frame (vdec_power_v3 hw io dev on).
Proof.
  unfold vdec_power_v3, vcodec_power_control_v3.
  keeps_auto power_frame_refl power_frame_trans fail.
Qed.

Lemma venc_power_v3_frame hw io dev on : keeps power_frame (venc_power_v3 hw io dev on).
Proof.
  unfold venc_power_v3, vcodec_power_control_v3.
  keeps_auto power_frame_refl power_frame_trans fail.
Qed.

Lemma core_power_v4_frame hw io dev on : keeps power_frame (core_power_v4 hw io dev on).
Proof.
  unfold core_power_v4, core_clks_disable, poweron_by_core_id, poweroff_by_core_id,
    vcodec_power_control_v4.
  keeps_auto power_frame_refl power_frame_trans ltac:(power_known hw).
Qed.

Lemma get_frame_refl w : get_frame w w.
Proof. apply both_refl; auto using only_calls_refl, same_counts_refl. Qed.

Lemma get_frame_trans a b c : get_frame a b -> get_frame b c -> get_frame a c.
Proof. apply both_trans; eauto using only_calls_trans, same_counts_trans. Qed.

Lemma put_frame_refl w : put_frame w w.
Proof.
  repeat apply both_refl; auto using only_calls_refl, same_counts_refl,
    same_drvdata_refl, same_dmesg_refl.
Qed.

Lemma put_frame_trans a b c : put_frame a b -> put_frame b c -> put_frame a c.
Proof.
  repeat apply both_trans; eauto using only_calls_trans, same_counts_trans,
    same_drvdata_trans, same_dmesg_trans.
Qed.

Ltac get_known hw :=
  apply (keeps_core_clks_get _ get_frame_refl get_frame_trans hw);
  intros; service.

Lemma core_get_pm_v1_frame hw dev : keeps get_frame (core_get_pm_v1 hw dev).
Proof.
  unfold core_get_pm_v1.
  keeps_auto get_frame_refl get_frame_trans ltac:(get_known hw).
Qed.

Lemma vdec_get_pm_v3_frame hw dev : keeps get_frame (vdec_get_pm_v3 hw dev).
Proof.
  unfold vdec_get_pm_v3. keeps_auto get_frame_refl get_frame_trans fail.
Qed.

Lemma venc_get_pm_v3_frame hw dev : keeps get_frame (venc_get_pm_v3 hw dev).
Proof.
  unfold venc_get_pm_v3. keeps_auto get_frame_refl get_frame_trans fail.
Qed.

Lemma core_get_pm_v4_frame hw dev : keeps get_frame (core_get_pm_v4 hw dev).
Proof.
  unfold core_get_pm_v4.
  keeps_auto get_frame_refl get_frame_trans ltac:(get_known hw).
Qed.

Lemma core_put_pm_v4_frame dev : keeps put_frame (core_put_pm_v4 dev).
Proof.
  unfold core_put_pm_v4. keeps_auto put_frame_refl put_frame_trans fail.
Qed.

(** X3. Whatever table the selector returns, each of its power operations
    (core, decoder session, encoder session), called with any [on] value
    from any state, makes runtime calls only (clock enable and disable,
    domain acquire and release, register write and poll) and leaves the
    driver data as it was: a power transition never resolves or gives back a
    resource and never changes a stored handle. *)
Theorem power_operations_keep_driver_data hw io version ops power :
  venus_get_pm_ops hw io version = Some ops ->
  core_power ops = Some power \/ vdec_power ops = Some power
  \/ venc_power ops = Some power ->
  forall dev on w,
    drvdata (snd (power dev on w)) = drvdata w /\
    exists new : list event,
      events (snd (power dev on w)) = events w ++ new /\
      forallb runtime_call new = true.
Proof.
  intros Hsel Hop dev on w.
  assert (Hk : keeps power_frame (power dev on)).
  { unfold venus_get_pm_ops in Hsel.
    destruct (version =? HFI_VERSION_1XX);
      [| destruct (version =? HFI_VERSION_3XX);
         [| destruct (version =? HFI_VERSION_4XX)]];
      injection Hsel as <-; simpl in Hop;
      destruct Hop as [H | [H | H]]; try discriminate H; injection H as <-;
      auto using core_power_v1_frame, vdec_power_v3_frame, venc_power_v3_frame,
        core_power_v4_frame. }
  destruct (Hk w) as (Hev & Hd). split; [exact Hd | exact Hev].
Qed.

Lemma power_operations_keep_driver_data_witness :
  (venus_get_pm_ops demo_hw demo_io HFI_VERSION_4XX
   = Some (venus_pm_ops_v4 demo_hw demo_io) /\
   (core_power (venus_pm_ops_v4 demo_hw demo_io) = Some (core_power_v4 demo_hw demo_io)
    \/ vdec_power (venus_pm_ops_v4 demo_hw demo_io) = Some (core_power_v4 demo_hw demo_io)
    \/ venc_power (venus_pm_ops_v4 demo_hw demo_io) = Some (core_power_v4 demo_hw demo_io)))
  /\
  forall dev on w,
    drvdata (snd (core_power_v4 demo_hw demo_io dev on w)) = drvdata w /\
    exists new : list event,
      events (snd (core_power_v4 demo_hw demo_io dev on w)) = events w ++ new /\
      forallb runtime_call new = true.
Proof.
  split.
  - split; [reflexivity | left; reflexivity].
  - apply (power_operations_keep_driver_data demo_hw demo_io HFI_VERSION_4XX
             (venus_pm_ops_v4 demo_hw demo_io) (core_power_v4 demo_hw demo_io)).
    + reflexivity.
    + left. reflexivity.
Defined.

(** X4. Whatever table the selector returns, each of its [get] operations
    (core, decoder session, encoder session) makes resolving calls only
    (clock lookup, power-domain attach, device link) and changes no clock's
    enable count: resolving resources never powers anything. *)
Theorem get_operations_only_resolve hw io version ops get :
  venus_get_pm_ops hw io version = Some ops ->
  core_get_pm ops = Some get \/ vdec_get_pm ops = Some get
  \/ venc_get_pm ops = Some get ->
  forall dev w,
    (forall c, enable_count (snd (get dev w)) c = enable_count w c) /\
    exists new : list event,
      events (snd (get dev w)) = events w ++ new /\
      forallb resolves new = true.
Proof.
  intros Hsel Hop dev w.
  assert (Hk : keeps get_frame (get dev)).
  { unfold venus_get_pm_ops in Hsel.
    destruct (version =? HFI_VERSION_1XX);
      [| destruct (version =? HFI_VERSION_3XX);
         [| destruct (version =? HFI_VERSION_4XX)]];
      injection Hsel as <-; simpl in Hop;
      destruct Hop as [H | [H | H]]; try discriminate H; injection H as <-;
      auto using core_get_pm_v1_frame, vdec_get_pm_v3_frame, venc_get_pm_v3_frame,
        core_get_pm_v4_frame. }
  destruct (Hk w) as (Hev & Hc). split; [exact Hc | exact Hev].
Qed.

Lemma get_operations_only_resolve_witness :
  (venus_get_pm_ops demo_hw demo_io HFI_VERSION_3XX
   = Some (venus_pm_ops_v3 demo_hw demo_io) /\
   (core_get_pm (venus_pm_ops_v3 demo_hw demo_io) = Some (vdec_get_pm_v3 demo_hw)
    \/ vdec_get_pm (venus_pm_ops_v3 demo_hw demo_io) = Some (vdec_get_pm_v3 demo_hw)
    \/ venc_get_pm (venus_pm_ops_v3 demo_hw demo_io) = Some (vdec_get_pm_v3 demo_hw)))
  /\
  forall dev w,
    (forall c, enable_count (snd (vdec_get_pm_v3 demo_hw dev w)) c = enable_count w c) /\
    exists new : list event,
      events (snd (vdec_get_pm_v3 demo_hw dev w)) = events w ++ new /\
      forallb resolves new = true.
Proof.
  split.
  - split; [reflexivity | right; left; reflexivity].
  - apply (get_operations_only_resolve demo_hw demo_io HFI_VERSION_3XX
             (venus_pm_ops_v3 demo_hw demo_io) (vdec_get_pm_v3 demo_hw)).
    + reflexivity.
    + right. left. reflexivity.
Defined.

(** X5. [put] of generation 4 leaves the driver data as it was: it does not
    clear the handles it has given back. So a second [put] makes the very
    same teardown calls again, on the same handles. Neither [put] touches an
    enable count or the kernel log. *)
Theorem core_put_pm_v4_twice dev w :
  let w1 := snd (core_put_pm_v4 dev w) in
  let w2 := snd (core_put_pm_v4 dev w1) in
  drvdata w1 = drvdata w /\
  events w1 = events w ++ teardown_events (drvdata w) /\
  events w2 = events w ++ teardown_events (drvdata w) ++ teardown_events (drvdata w) /\
  (forall c, enable_count w2 c = enable_count w c) /\
  dmesg w2 = dmesg w.
Proof.
  intros w1 w2.
  destruct (core_put_pm_v4_frame dev w) as (_ & Hc1 & Hd1 & Hm1).
  destruct (core_put_pm_v4_frame dev w1) as (_ & Hc2 & Hd2 & Hm2).
  fold w1 in Hc1, Hd1, Hm1. fold w2 in Hc2, Hd2, Hm2.
  unfold same_drvdata, same_dmesg in *.
  split; [exact Hd1 |].
  split; [apply core_put_pm_v4_events |].
  split.
  - subst w2. rewrite core_put_pm_v4_events. fold w1. rewrite Hd1.
    subst w1. rewrite core_put_pm_v4_events, <- app_assoc. reflexivity.
  - split.
    + intros c. rewrite Hc2. apply Hc1.
    + rewrite Hm2. exact Hm1.
Qed.

(** ** Version strategy selector: the three tables *)

(** X6. The selector never returns a null pointer, whatever the version. The
    table it returns always has the core [get] and [power] operations; it has
    a [put] operation exactly for generation 4, and session operations
    exactly for generation 3, whose core operations are those of
    generation 1. *)
Theorem venus_get_pm_ops_members hw io version :
  exists ops : venus_pm_ops,
    venus_get_pm_ops hw io version = Some ops /\
    core_get_pm ops <> None /\
    core_power ops <> None /\
    (core_put_pm ops <> None <-> version = HFI_VERSION_4XX) /\
    (vdec_get_pm ops <> None <-> version = HFI_VERSION_3XX) /\
    (vdec_power ops <> None <-> version = HFI_VERSION_3XX) /\
    (venc_get_pm ops <> None <-> version = HFI_VERSION_3XX) /\
    (venc_power ops <> None <-> version = HFI_VERSION_3XX) /\
    (version = HFI_VERSION_3XX ->
     core_get_pm ops = Some (core_get_pm_v1 hw) /\
     core_power ops = Some (core_power_v1 hw)).
Proof.
  unfold venus_get_pm_ops.
  destruct (Z.eqb_spec version HFI_VERSION_1XX) as [E1 | E1];
    [| destruct (Z.eqb_spec version HFI_VERSION_3XX) as [E3 | E3];
       [| destruct (Z.eqb_spec version HFI_VERSION_4XX) as [E4 | E4]]];
    eexists; (split; [reflexivity |]); simpl;
    repeat split; try discriminate; try congruence;
    intros H; try (exfalso; apply H; reflexivity);
    try (subst version; discriminate H).
Qed.

(** ** Enable counts over a whole power cycle *)

Section Cycle.

Variable hw : platform.
Variable io : hfi_venus_io.

(** The stepping of a run held in [H]: naming what a service returned,
    replacing a handshake by its write and poll, turning tests into facts. *)
Ltac returned H f r :=
  match type of H with
  | context [f hw ?w0 ?x] => set (r := f hw w0 x) in H; clearbody r
  end.

Ltac shake H :=
  rewrite vcodec_power_control_v4_run in H; cbv zeta in H;
  match type of H with
  | context [poll_loop ?rd ?c ?n 0] =>
      let vals := fresh "vals" in
      let r := fresh "r" in
      destruct (poll_loop rd c n 0) as [vals r]
  end;
  cbn [fst snd] in H.

Ltac tests :=
  repeat match goal with
         | E : negb _ = true |- _ => apply negb_true_iff in E
         | E : negb _ = false |- _ => apply negb_false_iff in E
         | E : (_ =? _) = false |- _ => apply Z.eqb_neq in E
         | E : (_ =? _) = true |- _ => apply Z.eqb_eq in E
         | E : (_ <? _) = true |- _ => apply Z.ltb_lt in E
         | E : (_ <? _) = false |- _ => apply Z.ltb_ge in E
         end.

(** A run that stopped with an error did not return 0. *)
Ltac stopped out := subst out; cbn [fst]; intros; exfalso; tests; lia.

(** A power-on of both cores that returns 0 has enabled the four per-core
    clocks, each once. *)
Lemma poweron_both_counts core dev w :
  let run := poweron_by_core_id hw io core dev
               (Z.lor VIDC_CORE_ID_1 VIDC_CORE_ID_2) w in
  fst run = 0 ->
  forall c, enable_count (snd run) c
            = (enable_count w c
               + hit c (core0_clk core) + hit c (core0_bus_clk core)
               + hit c (core1_clk core) + hit c (core1_bus_clk core))%nat.
Proof.
  intros run.
  remember run as out eqn:H. subst run.
  unfold poweron_by_core_id in H.
  change (Z.land (Z.lor VIDC_CORE_ID_1 VIDC_CORE_ID_2) VIDC_CORE_ID_1 =? 0)
    with false in H.
  change (Z.land (Z.lor VIDC_CORE_ID_1 VIDC_CORE_ID_2) VIDC_CORE_ID_2 =? 0)
    with false in H.
  unfold bind, clk_prepare_enable, pm_runtime_get_sync, pure in H.
  cbv beta iota zeta in H. cbn [negb] in H.
  returned H pm_runtime_get_sync_result r_pd.
  destruct (r_pd <? 0) eqn:E1; cbv beta iota in H; [stopped out |].
  shake H. rename vals into va, r into r_a.
  destruct (negb (r_a =? 0)) eqn:E2; cbv beta iota in H; [stopped out |].
  returned H clk_prepare_enable_result r_clk.
  destruct (negb (r_clk =? 0)) eqn:E3; cbv beta iota in H; [stopped out |].
  returned H clk_prepare_enable_result r_bus.
  destruct (negb (r_bus =? 0)) eqn:E4; cbv beta iota in H; [stopped out |].
  shake H. rename vals into vd, r into r_d.
  destruct (r_d <? 0) eqn:E5; cbv beta iota in H; [stopped out |].
  returned H pm_runtime_get_sync_result r_pd'.
  destruct (r_pd' <? 0) eqn:E1'; cbv beta iota in H; [stopped out |].
  shake H. rename vals into va', r into r_a'.
  destruct (negb (r_a' =? 0)) eqn:E2'; cbv beta iota in H; [stopped out |].
  returned H clk_prepare_enable_result r_clk'.
  destruct (negb (r_clk' =? 0)) eqn:E3'; cbv beta iota in H; [stopped out |].
  returned H clk_prepare_enable_result r_bus'.
  destruct (negb (r_bus' =? 0)) eqn:E4'; cbv beta iota in H; [stopped out |].
  shake H. rename vals into vd', r into r_d'.
  subst out. cbn [fst snd]. intros _ c. tests. subst r_clk r_bus r_clk' r_bus'.
  unfold clk_settle. change (0 =? 0) with true. cbv iota.
  cbn [enable_count log clk_count_up]. unfold hit.
  destruct (c =? core0_clk core), (c =? core0_bus_clk core),
    (c =? core1_clk core), (c =? core1_bus_clk core); lia.
Qed.

(** A power-off of both cores that returns 0 has disabled the four per-core
    clocks, each once. *)
Lemma poweroff_both_counts core dev w :
  let run := poweroff_by_core_id hw io core dev
               (Z.lor VIDC_CORE_ID_1 VIDC_CORE_ID_2) w in
  fst run = 0 ->
  forall c, enable_count (snd run) c
            = (enable_count w c
               - hit c (core0_bus_clk core) - hit c (core0_clk core)
               - hit c (core1_bus_clk core) - hit c (core1_clk core))%nat.
Proof.
  intros run.
  remember run as out eqn:H. subst run.
  unfold poweroff_by_core_id in H.
  change (Z.land (Z.lor VIDC_CORE_ID_1 VIDC_CORE_ID_2) VIDC_CORE_ID_1 =? 0)
    with false in H.
  change (Z.land (Z.lor VIDC_CORE_ID_1 VIDC_CORE_ID_2) VIDC_CORE_ID_2 =? 0)
    with false in H.
  unfold bind, clk_disable_unprepare, pm_runtime_put_sync, dev_err, pure in H.
  cbv beta iota zeta in H. cbn [negb] in H.
  shake H. rename vals into va, r into r_a.
  destruct (negb (r_a =? 0)) eqn:E1; cbv beta iota in H; [stopped out |].
  shake H. rename vals into vd, r into r_d.
  destruct (negb (r_d =? 0)) eqn:E2; cbv beta iota in H.
  all: returned H pm_runtime_put_sync_result r_p.
  all: destruct (r_p <? 0) eqn:E3; cbv beta iota in H; [stopped out |].
  all: shake H; rename vals into va', r into r_a'.
  all: destruct (negb (r_a' =? 0)) eqn:E4; cbv beta iota in H; [stopped out |].
  all: shake H; rename vals into vd', r into r_d'.
  all: destruct (negb (r_d' =? 0)) eqn:E5; cbv beta iota in H.
  all: subst out; cbn [fst snd]; intros _ c;
    cbn [enable_count log printk clk_count_down]; unfold hit;
    destruct (c =? core0_clk core), (c =? core0_bus_clk core),
      (c =? core1_clk core), (c =? core1_bus_clk core); lia.
Qed.

End Cycle.

Lemma clk_frame_refl w : clk_frame w w.
Proof.
  repeat apply both_refl; auto using only_calls_refl, same_drvdata_refl,
    same_dmesg_refl.
Qed.

Lemma clk_frame_trans a b c : clk_frame a b -> clk_frame b c -> clk_frame a c.
Proof.
  repeat apply both_trans; eauto using only_calls_trans, same_drvdata_trans,
    same_dmesg_trans.
Qed.

Lemma core_clks_enable_frame hw core : keeps clk_frame (core_clks_enable hw core).
Proof.
  apply (keeps_core_clks_enable _ clk_frame_refl clk_frame_trans); intros; service.
Qed.

Lemma core_clks_disable_frame core : keeps clk_frame (core_clks_disable core).
Proof.
  apply (keeps_clks_disable_from _ clk_frame_refl clk_frame_trans); intros; service.
Qed.

(** The enable counts after the group enable: raised by the occurrences of
    each clock when it returned 0, as before when it did not. *)
Lemma core_clks_enable_counts hw core w :
  let run := core_clks_enable hw core w in
  forall c,
    enable_count (snd run) c
    = if fst run =? 0
      then (enable_count w c + occurrences core 0 (clks_num (res core)) c)%nat
      else enable_count w c.
Proof.
  intros run c. subst run. unfold core_clks_enable, bind.
  pose proof (core_clks_enable_loop_spec hw core (clks_num (res core)) 0 w) as H.
  cbv zeta in H.
  destruct (core_clks_enable_loop hw core (clks_num (res core)) 0 w)
    as [[[r k] |] w1]; simpl in H; destruct H as (_ & _ & H).
  - destruct H as (Hr & Hk & He & Hn). rewrite Nat.sub_0_r in Hn.
    unfold bind, pure.
    destruct (clks_disable_from_spec core k w1) as (_ & _ & _ & Hn').
    destruct (clks_disable_from core k w1) as [[] w2]. simpl in *.
    apply Z.eqb_neq in Hr. rewrite Hr. rewrite Hn', Hn. lia.
  - destruct H as (_ & Hn). simpl. apply Hn.
Qed.

(** ** Generation 4: power on, and the whole cycle *)

(** X7. power(on) of generation 4. When the group enable of the shared clocks
    fails, its error is returned and logged once, only clock calls were made
    (no core is touched), and every enable count is as before. When it
    succeeds, the run goes on exactly as the per-core power-on of both cores
    from the state the group enable left, nothing more is logged, and
    whatever the per-core power-on returns the shared clocks stay enabled:
    there is no rollback of the clock set after a core failure. *)
Theorem core_power_v4_on_paths hw io dev w :
  let core := drvdata w in
  let en := core_clks_enable hw core w in
  let run := core_power_v4 hw io dev POWER_ON w in
  (fst en <> 0 ->
     fst run = fst en /\
     (exists new : list event,
        events (snd run) = events w ++ new /\ forallb is_clk_call new = true) /\
     dmesg (snd run)
     = dmesg w ++ [("core clocks enable failed (%d)\n"%string, [ArgInt (fst en)])] /\
     (forall c, enable_count (snd run) c = enable_count w c))
  /\
  (fst en = 0 ->
     run = poweron_by_core_id hw io core dev
             (Z.lor VIDC_CORE_ID_1 VIDC_CORE_ID_2) (snd en) /\
     dmesg (snd run) = dmesg w /\
     (forall c, (enable_count w c + occurrences core 0 (clks_num (res core)) c
                 <= enable_count (snd run) c)%nat)).
Proof.
  intros core en run.
  pose proof (core_clks_enable_counts hw core w) as Hcnt. cbv zeta in Hcnt.
  destruct (core_clks_enable_frame hw core w) as (Hev & Hdrv & Hmsg).
  fold en in Hcnt, Hev, Hdrv, Hmsg.
  assert (Hrun : run = (let (r, w1) := en in
                        if negb (r =? 0)
                        then (r, printk "core clocks enable failed (%d)\n"
                                        [ArgInt r] w1)
                        else poweron_by_core_id hw io core dev
                               (Z.lor VIDC_CORE_ID_1 VIDC_CORE_ID_2) w1)).
  { subst run en. unfold core_power_v4, bind, dev_get_drvdata, dev_err, pure.
    change (POWER_ON =? POWER_ON) with true. cbv beta iota. fold core.
    destruct (core_clks_enable hw core w) as [r w1].
    destruct (negb (r =? 0)); [reflexivity |].
    destruct (poweron_by_core_id hw io core dev
                (Z.lor VIDC_CORE_ID_1 VIDC_CORE_ID_2) w1); reflexivity. }
  clearbody run en. destruct en as [r w1]. cbn [fst snd] in *. subst run.
  split.
  - intros Hr. apply Z.eqb_neq in Hr. rewrite Hr in *. cbn [negb fst snd].
    split; [reflexivity |].
    split; [exact Hev |].
    split.
    + cbn [dmesg printk]. unfold same_dmesg in Hmsg. now rewrite Hmsg.
    + intros c. cbn [enable_count printk]. apply Hcnt.
  - intros Hr. subst r. change (negb (0 =? 0)) with false. cbv iota.
    split; [reflexivity |].
    destruct (poweron_by_core_id_up hw io core dev
                (Z.lor VIDC_CORE_ID_1 VIDC_CORE_ID_2) w1) as (_ & Hg & _ & Hm).
    split.
    + unfold same_dmesg in *. now rewrite Hm.
    + intros c. specialize (Hg c). specialize (Hcnt c).
      change (0 =? 0) with true in Hcnt. cbv iota in Hcnt. lia.
Qed.

(** X8. A power(on) of generation 4 that returns 0, followed at once by a
    power(off) that returns 0, brings the enable count of every clock, shared
    or per-core, back to its value before the power(on). *)
Theorem core_power_v4_on_off_restores hw io dev w :
  fst (core_power_v4 hw io dev POWER_ON w) = 0 ->
  let w1 := snd (core_power_v4 hw io dev POWER_ON w) in
  fst (core_power_v4 hw io dev POWER_OFF w1) = 0 ->
  let w2 := snd (core_power_v4 hw io dev POWER_OFF w1) in
  forall c, enable_count w2 c = enable_count w c.
Proof.
  intros Hon w1 Hoff w2 c.
  set (core := drvdata w).
  (* the way up *)
  pose proof (core_clks_enable_counts hw core w c) as Hcnt. cbv zeta in Hcnt.
  destruct (core_clks_enable_frame hw core w) as (_ & Hdrv & _).
  assert (Hup : exists wa,
             core_clks_enable hw core w = (0, wa) /\
             core_power_v4 hw io dev POWER_ON w
             = poweron_by_core_id hw io core dev
                 (Z.lor VIDC_CORE_ID_1 VIDC_CORE_ID_2) wa).
  { revert Hon. unfold core_power_v4, bind, dev_get_drvdata, dev_err, pure.
    change (POWER_ON =? POWER_ON) with true. cbv beta iota. fold core.
    destruct (core_clks_enable hw core w) as [r wa].
    destruct (negb (r =? 0)) eqn:E.
    - cbn [fst]. intros ->. discriminate E.
    - intros _. apply negb_false_iff, Z.eqb_eq in E. subst r.
      exists wa. split; [reflexivity |].
      destruct (poweron_by_core_id hw io core dev
                  (Z.lor VIDC_CORE_ID_1 VIDC_CORE_ID_2) wa); reflexivity. }
  destruct Hup as (wa & Hen & Hrun).
  rewrite Hen in Hcnt, Hdrv. cbn [fst snd] in Hcnt, Hdrv.
  change (0 =? 0) with true in Hcnt. cbv iota in Hcnt.
  rewrite Hrun in Hon.
  pose proof (poweron_both_counts hw io core dev wa Hon c) as Hon_cnt.
  destruct (poweron_by_core_id_up hw io core dev
              (Z.lor VIDC_CORE_ID_1 VIDC_CORE_ID_2) wa) as (_ & _ & Hdrv1 & _).
  assert (Hw1 : w1 = snd (poweron_by_core_id hw io core dev
                            (Z.lor VIDC_CORE_ID_1 VIDC_CORE_ID_2) wa)).
  { subst w1. now rewrite Hrun. }
  rewrite <- Hw1 in Hon_cnt, Hdrv1.
  assert (Hcore1 : drvdata w1 = core).
  { unfold same_drvdata in *. rewrite Hdrv1, Hdrv. reflexivity. }
  (* the way down *)
  assert (Hdown : exists wb,
             poweroff_by_core_id hw io core dev
               (Z.lor VIDC_CORE_ID_1 VIDC_CORE_ID_2) w1 = (0, wb) /\
             w2 = snd (core_clks_disable core wb)).
  { subst w2. revert Hoff.
    unfold core_power_v4, bind, dev_get_drvdata, dev_err, pure.
    change (POWER_OFF =? POWER_ON) with false. cbv beta iota. rewrite Hcore1.
    destruct (poweroff_by_core_id hw io core dev
                (Z.lor VIDC_CORE_ID_1 VIDC_CORE_ID_2) w1) as [r wb].
    destruct (negb (r =? 0)) eqn:E.
    - destruct (core_clks_disable core (printk _ _ wb)) as [[] wc].
      cbn [fst]. intros ->. discriminate E.
    - destruct (core_clks_disable core wb) as [[] wc] eqn:Ed.
      cbn [fst snd]. intros ->. exists wb. split; [reflexivity | now rewrite Ed]. }
  destruct Hdown as (wb & Hoffrun & Hw2).
  pose proof (poweroff_both_counts hw io core dev w1) as Hoff_cnt.
  cbv zeta in Hoff_cnt. rewrite Hoffrun in Hoff_cnt.
  specialize (Hoff_cnt eq_refl c). cbn [snd] in Hoff_cnt.
  destruct (clks_disable_from_spec core (clks_num (res core)) wb) as (_ & _ & _ & Hdis).
  unfold core_clks_disable in Hw2. rewrite <- Hw2 in Hdis.
  rewrite Hdis, Hoff_cnt, Hon_cnt, Hcnt.
  unfold hit.
  destruct (c =? core0_clk core), (c =? core0_bus_clk core),
    (c =? core1_clk core), (c =? core1_bus_clk core); lia.
Qed.

Lemma core_power_v4_on_off_restores_witness :
  (fst (core_power_v4 demo_hw demo_io 1 POWER_ON ready_world) = 0 /\
   fst (core_power_v4 demo_hw demo_io 1 POWER_OFF
          (snd (core_power_v4 demo_hw demo_io 1 POWER_ON ready_world))) = 0) /\
  forall c,
    enable_count
      (snd (core_power_v4 demo_hw demo_io 1 POWER_OFF
              (snd (core_power_v4 demo_hw demo_io 1 POWER_ON ready_world)))) c
    = enable_count ready_world c.
Proof.
  split.
  - split; reflexivity.
  - apply (core_power_v4_on_off_restores demo_hw demo_io 1 ready_world);
      reflexivity.
Defined.

(** ** Generation 3: a session's power cycle *)

(** X9. The decoder and the encoder power path of generation 3. A power-on
    that fails leaves every enable count as it was: the failed enable needs
    no power-off to undo it. A power-on that returns 0, followed at once by a
    power-off, brings every enable count back to its value before the
    power-on. *)
Theorem session_power_v3_cycle hw io power dev w :
  power = vdec_power_v3 hw io \/ power = venc_power_v3 hw io ->
  let on := power dev POWER_ON w in
  (fst on <> 0 -> forall c, enable_count (snd on) c = enable_count w c) /\
  (fst on = 0 ->
   forall c, enable_count (snd (power dev POWER_OFF (snd on))) c = enable_count w c).
Proof.
  intros [-> | ->] on; subst on;
    unfold vdec_power_v3, venc_power_v3, vcodec_power_control_v3,
      bind, dev_get_drvdata, writel, clk_prepare_enable, clk_settle,
      clk_disable_unprepare, pure;
    change (POWER_ON =? POWER_ON) with true;
    change (POWER_OFF =? POWER_ON) with false;
    cbv beta iota zeta; cbn [fst snd drvdata log];
    match goal with
    | |- context [clk_prepare_enable_result hw ?w0 ?c0] =>
        set (r := clk_prepare_enable_result hw w0 c0); clearbody r
    end;
    (split; intros Hr c;
     [ apply Z.eqb_neq in Hr; rewrite Hr; reflexivity
     | subst r; change (0 =? 0) with true;
       cbn [enable_count log clk_count_up clk_count_down drvdata];
       match goal with |- context [if ?b then _ else _] => destruct b end;
       reflexivity ]).
Qed.

Lemma session_power_v3_cycle_witness :
  (vdec_power_v3 demo_hw demo_io = vdec_power_v3 demo_hw demo_io
   \/ vdec_power_v3 demo_hw demo_io = venc_power_v3 demo_hw demo_io) /\
  (let on := vdec_power_v3 demo_hw demo_io 1 POWER_ON ready_world in
   (fst on <> 0 -> forall c, enable_count (snd on) c = enable_count ready_world c) /\
   (fst on = 0 ->
    forall c,
      enable_count (snd (vdec_power_v3 demo_hw demo_io 1 POWER_OFF (snd on))) c
      = enable_count ready_world c)).
Proof.
  split.
  - left. reflexivity.
  - apply (session_power_v3_cycle demo_hw demo_io (vdec_power_v3 demo_hw demo_io)
             1 ready_world).
    left. reflexivity.
Defined.

(** ** Generation 1: power off *)

(** X10. For generation 1, every [on] value other than POWER_ON is a
    power-off: the whole shared clock set is disabled, last clock first, 0 is
    returned whatever happened, nothing is logged, and each enable count goes
    down by the number of times the clock occurs in the set, stopping at
    zero. *)
Theorem core_power_v1_off hw dev on w :
  on <> POWER_ON ->
  let core := drvdata w in
  let run := core_power_v1 hw dev on w in
  fst run = 0 /\
  events (snd run)
  = events w ++ map (disabled core) (rev (seq 0 (clks_num (res core)))) /\
  dmesg (snd run) = dmesg w /\
  drvdata (snd run) = drvdata w /\
  (forall c, enable_count (snd run) c
             = (enable_count w c - occurrences core 0 (clks_num (res core)) c)%nat).
Proof.
  intros Hon core run. subst run.
  unfold core_power_v1, bind, dev_get_drvdata, core_clks_disable, pure.
  apply Z.eqb_neq in Hon. rewrite Hon. cbv beta iota. fold core.
  destruct (clks_disable_from_spec core (clks_num (res core)) w)
    as (He & Hd & Hc & Hn).
  destruct (clks_disable_from core (clks_num (res core)) w) as [[] w1].
  cbn [fst snd] in *. repeat split; assumption.
Qed.

Lemma core_power_v1_off_witness :
  5 <> POWER_ON /\
  (let core := drvdata ready_world in
   let run := core_power_v1 demo_hw 1 5 ready_world in
   fst run = 0 /\
   events (snd run)
   = events ready_world ++ map (disabled core) (rev (seq 0 (clks_num (res core)))) /\
   dmesg (snd run) = dmesg ready_world /\
   drvdata (snd run) = drvdata ready_world /\
   (forall c, enable_count (snd run) c
              = (enable_count ready_world c
                 - occurrences core 0 (clks_num (res core)) c)%nat)).
Proof.
  split.
  - discriminate.
  - apply (core_power_v1_off demo_hw 1 5 ready_world). discriminate.
Defined.

(** ** The shared clock set: lookup *)

Lemma array_set_length a i v : List.length (array_set a i v) = List.length a.
Proof.
  revert i. induction a as [| x a IH]; intros i; simpl; [reflexivity |].
  destruct i; simpl; [reflexivity | now rewrite IH].
Qed.

Lemma nth_array_set a i v j :
  (i < List.length a)%nat ->
  nth j (array_set a i v) NULL = if (j =? i)%nat then v else nth j a NULL.
Proof.
  revert i j. induction a as [| x a IH]; intros i j Hi; simpl in Hi; [lia |].
  destruct i as [| i]; destruct j as [| j]; simpl; try reflexivity.
  apply IH. lia.
Qed.

Lemma nth_array_set_out a i v j :
  (List.length a <= i)%nat -> nth j (array_set a i v) NULL = nth j a NULL.
Proof.
  revert i j. induction a as [| x a IH]; intros i j Hi; simpl; [reflexivity |].
  destruct i as [| i]; simpl in Hi; [lia |].
  destruct j as [| j]; simpl; [reflexivity |]. apply IH. lia.
Qed.

Section ClksGet.

Variable hw : platform.

(** What the lookup loop leaves in [core->clks]. *)
Lemma core_clks_get_loop_stores core n i w :
  let run := core_clks_get_loop hw core n i w in
  exists ps : list ptr,
    events (snd run)
    = events w ++ map (clk_get_at core) (combine (seq i (List.length ps)) ps) /\
    (List.length ps <= n)%nat /\
    (fst run = None -> List.length ps = n) /\
    List.length (clks (drvdata (snd run))) = List.length (clks (drvdata w)) /\
    (forall j, (j < List.length (clks (drvdata w)))%nat ->
       clk_at (drvdata (snd run)) j
       = if ((i <=? j) && (j <? i + List.length ps))%nat
         then nth (j - i) ps NULL
         else clk_at (drvdata w) j).
Proof.
  revert i w. induction n as [| n IH]; intros i w; cbv zeta.
  - exists []. simpl. rewrite app_nil_r.
    split; [reflexivity |]. split; [lia |]. split; [reflexivity |].
    split; [reflexivity |].
    intros j Hj. rewrite Nat.add_0_r.
    destruct (Nat.leb_spec i j); destruct (Nat.ltb_spec j i); try reflexivity; lia.
  - simpl. unfold bind, devm_clk_get, set_drvdata.
    set (p := wrap_ptr (devm_clk_get_result hw w (clk_name_at (res core) i))).
    clearbody p. cbv beta iota zeta.
    assert (Hset : forall j, (j < List.length (clks (drvdata w)))%nat ->
               nth j (array_set (clks (drvdata w)) i p) NULL
               = if (j =? i)%nat then p else nth j (clks (drvdata w)) NULL).
    { intros j Hj. destruct (Nat.ltb_spec i (List.length (clks (drvdata w)))).
      - now apply nth_array_set.
      - rewrite nth_array_set_out by lia.
        destruct (Nat.eqb_spec j i); [lia | reflexivity]. }
    destruct (IS_ERR p) eqn:E.
    + exists [p]. unfold pure.
      cbn [fst snd events drvdata log store set_clks_at clks List.length seq
             combine map].
      split; [reflexivity |]. split; [lia |]. split; [discriminate |].
      split; [apply array_set_length |].
      intros j Hj. unfold clk_at.
      change (clks (set_clks_at i p (drvdata w)))
        with (array_set (clks (drvdata w)) i p).
      rewrite Hset by exact Hj. cbn [List.length].
      destruct (Nat.eqb_spec j i) as [-> | Hne].
      * rewrite Nat.leb_refl. destruct (Nat.ltb_spec i (i + 1)); [| lia].
        rewrite Nat.sub_diag. reflexivity.
      * destruct (Nat.leb_spec i j); destruct (Nat.ltb_spec j (i + 1));
          try reflexivity; lia.
    + match goal with
      | |- context [core_clks_get_loop hw core n (S i) ?w1] =>
          destruct (IH (S i) w1) as (ps & He & Hl & Hnone & Hlen & Hat);
          destruct (core_clks_get_loop hw core n (S i) w1) as [out w2]
      end.
      cbn [fst snd events drvdata log store set_clks_at clks] in *.
      rewrite array_set_length in Hlen, Hat.
      exists (p :: ps).
      split.
      { rewrite He, <- app_assoc. reflexivity. }
      split; [simpl; lia |].
      split; [intros Ho; simpl; now rewrite (Hnone Ho) |].
      split; [exact Hlen |].
      intros j Hj. rewrite (Hat j Hj). unfold clk_at.
      change (clks (set_clks_at i p (drvdata w)))
        with (array_set (clks (drvdata w)) i p).
      rewrite Hset by exact Hj.
      cbn [List.length].
      destruct (Nat.eqb_spec j i) as [-> | Hne].
      * rewrite Nat.leb_refl.
        destruct (Nat.leb_spec (S i) i); [lia |]. cbn [andb].
        destruct (Nat.ltb_spec i (i + S (List.length ps))); [| lia].
        rewrite Nat.sub_diag. reflexivity.
      * destruct (Nat.leb_spec (S i) j); destruct (Nat.leb_spec i j);
          destruct (Nat.ltb_spec j (S i + List.length ps));
          destruct (Nat.ltb_spec j (i + S (List.length ps)));
          cbn [andb]; try reflexivity; try lia.
        replace (j - i)%nat with (S (j - S i)) by lia. reflexivity.
Qed.

(** X12. [get] of generation 1 looks the shared clocks up in the order of the
    resource table and stops at the first that does not resolve, whose error
    code it returns; when all resolve it returns 0. It logs nothing and
    touches no power-domain or link handle. *)
Theorem core_get_pm_v1_stops_at_first_failure dev w :
  let core := drvdata w in
  let run := core_get_pm_v1 hw dev w in
  exists (new : list event) (rest : list resource),
    events (snd run) = events w ++ new /\
    map resource_of new ++ rest = shared_clocks core 0 (clks_num (res core)) /\
    ((fst run = 0 /\ rest = [] /\ Forall resolved new)
     \/
     (fst run <> 0 /\
      exists done e, new = done ++ [e] /\ Forall resolved done /\
                     resolution_error e = Some (fst run))) /\
    dmesg (snd run) = dmesg w /\
    pd_core (drvdata (snd run)) = pd_core core /\
    pd_core0 (drvdata (snd run)) = pd_core0 core /\
    pd_core1 (drvdata (snd run)) = pd_core1 core /\
    pd_dl_venus (drvdata (snd run)) = pd_dl_venus core.
Proof.
  intros core run. subst run.
  unfold core_get_pm_v1, core_clks_get, bind, dev_get_drvdata. fold core.
  destruct (core_clks_get_loop_spec hw core (clks_num (res core)) 0 w)
    as (evs & Hev & Hd & Hlen & Hres & _ & (Hh & Hh0 & Hh1 & Hdl) & Hout).
  destruct (core_clks_get_loop hw core (clks_num (res core)) 0 w) as [out w1].
  cbn [fst snd] in *.
  destruct out as [err |]; unfold pure; cbn [fst snd].
  - destruct Hout as (Herr & done & e & Hevs & Hdone & Herrof).
    exists evs, (shared_clocks core (List.length evs)
                   (clks_num (res core) - List.length evs)).
    split; [exact Hev |].
    split.
    { rewrite Hres. unfold shared_clocks. rewrite <- map_app, <- seq_app.
      replace (List.length evs + (clks_num (res core) - List.length evs))%nat
        with (clks_num (res core)) by lia.
      reflexivity. }
    split; [right; split; [exact Herr |]; exists done, e; auto |].
    repeat split; assumption.
  - destruct Hout as (Hn & Hall).
    exists evs, []. split; [exact Hev |].
    split; [rewrite app_nil_r, Hres, Hn; reflexivity |].
    split; [left; auto |].
    repeat split; assumption.
Qed.

(** X13. [get] of generation 1 stores each handle it gets at the clock's
    index in [core->clks]: after the run, the entry of every clock that was
    looked up is the pointer its lookup returned, error pointer of the
    failing lookup included; the entries behind stay as they were and the
    array keeps its size. All [clks_num] clocks are looked up when the
    result is 0. *)
Theorem core_get_pm_v1_stores_handles dev w :
  let core := drvdata w in
  let run := core_get_pm_v1 hw dev w in
  exists ps : list ptr,
    events (snd run)
    = events w ++ map (clk_get_at core) (combine (seq 0 (List.length ps)) ps) /\
    (List.length ps <= clks_num (res core))%nat /\
    (fst run = 0 -> List.length ps = clks_num (res core)) /\
    List.length (clks (drvdata (snd run))) = List.length (clks core) /\
    (forall j, (j < List.length (clks core))%nat ->
       clk_at (drvdata (snd run)) j
       = if (j <? List.length ps)%nat then nth j ps NULL else clk_at core j).
Proof.
  intros core run. subst run.
  unfold core_get_pm_v1, core_clks_get, bind, dev_get_drvdata. fold core.
  destruct (core_clks_get_loop_stores core (clks_num (res core)) 0 w)
    as (ps & Hev & Hl & Hnone & Hlen & Hat).
  destruct (core_clks_get_loop_spec hw core (clks_num (res core)) 0 w)
    as (evs & _ & _ & _ & _ & _ & _ & Hout).
  destruct (core_clks_get_loop hw core (clks_num (res core)) 0 w) as [out w1].
  cbn [fst snd] in *. fold core in Hlen, Hat.
  assert (Hat0 : forall j, (j < List.length (clks core))%nat ->
             clk_at (drvdata w1) j
             = if (j <? List.length ps)%nat then nth j ps NULL else clk_at core j).
  { intros j Hj. specialize (Hat j Hj). cbn [Nat.leb andb Nat.add] in Hat.
    now rewrite Nat.sub_0_r in Hat. }
  destruct out as [err |]; unfold pure; cbn [fst snd]; exists ps;
    (split; [exact Hev |]); (split; [exact Hl |]);
    (split; [| split; [exact Hlen | exact Hat0]]).
  - intros Hz. destruct Hout as (Herr & _). now elim Herr.
  - intros _. now apply Hnone.
Qed.

End ClksGet.

(** ** Resolving the session clocks and the generation-4 resources *)

Section Resolve.

Variable hw : platform.

(** X14. The decoder and the encoder [get] of generation 3, run one after the
    other. Both look up the clock named "core"; the decoder's handle goes to
    [core0_clk], the encoder's to [core1_clk], and neither touches the other's
    field or anything else in the driver data. Each returns 0 exactly when
    its handle is not an error pointer, and otherwise the error code, which
    lies in -4095..-1; the error pointer stays stored in the field. The
    second lookup is made whatever the first returned. *)
Theorem session_get_pm_v3_both dev w :
  let g1 := vdec_get_pm_v3 hw dev w in
  let g2 := venc_get_pm_v3 hw dev (snd g1) in
  let c := drvdata (snd g2) in
  events (snd g2)
  = events w ++ [EvDevmClkGet "core" (core0_clk c); EvDevmClkGet "core" (core1_clk c)] /\
  c = set_core1_clk (core1_clk c) (set_core0_clk (core0_clk c) (drvdata w)) /\
  fst g1 = (if IS_ERR (core0_clk c) then int_of_long (PTR_ERR (core0_clk c)) else 0) /\
  fst g2 = (if IS_ERR (core1_clk c) then int_of_long (PTR_ERR (core1_clk c)) else 0) /\
  (fst g1 = 0 <-> IS_ERR (core0_clk c) = false) /\
  (fst g2 = 0 <-> IS_ERR (core1_clk c) = false) /\
  - MAX_ERRNO <= fst g1 <= 0 /\
  - MAX_ERRNO <= fst g2 <= 0.
Proof.
  intros g1 g2 c. subst c g2 g1.
  unfold vdec_get_pm_v3, venc_get_pm_v3, bind, devm_clk_get, set_drvdata, pure.
  cbv beta iota zeta. cbn [fst snd].
  set (p1 := wrap_ptr (devm_clk_get_result hw w "core")).
  pose proof (wrap_ptr_range (devm_clk_get_result hw w "core")) as Hp1.
  fold p1 in Hp1. clearbody p1.
  match goal with
  | |- context [wrap_ptr (devm_clk_get_result hw ?w0 ?x)] =>
      pose proof (wrap_ptr_range (devm_clk_get_result hw w0 x)) as Hp2;
      set (p2 := wrap_ptr (devm_clk_get_result hw w0 x)) in *; clearbody p2
  end.
  destruct (IS_ERR p1) eqn:E1; destruct (IS_ERR p2) eqn:E2;
    cbn [fst snd events drvdata log store set_core0_clk set_core1_clk
           core0_clk core1_clk];
    rewrite ?E1, ?E2;
    try (destruct (PTR_ERR_of_IS_ERR p1 Hp1 E1) as [_ R1]);
    try (destruct (PTR_ERR_of_IS_ERR p2 Hp2 E2) as [_ R2]);
    unfold MAX_ERRNO in *;
    (split; [rewrite <- app_assoc; reflexivity |]);
    (split; [reflexivity |]);
    (split; [reflexivity |]); (split; [reflexivity |]);
    repeat split; intros; try lia; try reflexivity; try discriminate.
Qed.

(** The pointer a resolution call of the run in [H] returned gets a name. *)
Ltac got H f p Hp :=
  match type of H with
  | context [wrap_ptr (f hw ?w0 ?x)] =>
      pose proof (wrap_ptr_range (f hw w0 x)) as Hp;
      set (p := wrap_ptr (f hw w0 x)) in *; clearbody p
  end.

(** Generation 4's [get], seen from the driver data it leaves. *)
Lemma core_get_pm_v4_handles dev w :
  let run := core_get_pm_v4 hw dev w in
  let c := drvdata (snd run) in
  exists evs tail : list event,
    events (snd run) = events w ++ evs ++ tail /\
    forallb is_clk_get evs = true /\
    dmesg (snd run)
    = dmesg w ++ (if existsb link_failed tail
                  then [("adding venus device link failed!\n"%string, [])]
                  else []) /\
    (existsb link_failed tail = true ->
     fst run = - ENODEV /\ pd_dl_venus c = NULL) /\
    (fst run = 0 ->
     List.length evs = clks_num (res (drvdata w)) /\
     tail = [EvDevmClkGet "vcodec0_core" (core0_clk c);
             EvDevmClkGet "vcodec0_bus" (core0_bus_clk c);
             EvDevmClkGet "vcodec1_core" (core1_clk c);
             EvDevmClkGet "vcodec1_bus" (core1_bus_clk c);
             EvPmDomainAttach "venus" (pd_core c);
             EvPmDomainAttach "vcodec0" (pd_core0 c);
             EvPmDomainAttach "vcodec1" (pd_core1 c);
             EvDeviceLinkAdd dev (pd_core c) v4_link_flags (pd_dl_venus c)] /\
     forallb (fun p => negb (IS_ERR p))
             [core0_clk c; core0_bus_clk c; core1_clk c; core1_bus_clk c;
              pd_core c; pd_core0 c; pd_core1 c] = true /\
     pd_dl_venus c <> NULL).
Proof.
  intros run c. subst c. remember run as result eqn:H. subst run.
  unfold core_get_pm_v4, core_clks_get, bind, dev_get_drvdata, devm_clk_get,
    dev_pm_domain_attach_by_name, device_link_add, set_drvdata, dev_err, pure in H.
  cbv beta iota zeta in H.
  destruct (core_clks_get_loop_spec hw (drvdata w) (clks_num (res (drvdata w))) 0 w)
    as (evs & Hev & Hmsg & Hlen & _ & Hclk & _ & Hout).
  destruct (core_clks_get_loop hw (drvdata w) (clks_num (res (drvdata w))) 0 w)
    as [out w1].
  cbn [fst snd] in *.
  destruct out as [err |].
  { destruct Hout as (Herr & _).
    apply Z.eqb_neq in Herr. rewrite Herr in H. cbn [negb] in H.
    apply Z.eqb_neq in Herr. subst result. cbn [fst snd].
    exists evs, []. rewrite !app_nil_r.
    split; [exact Hev |]. split; [exact Hclk |]. split; [exact Hmsg |].
    split; [discriminate |]. intros Hz. now elim Herr. }
  destruct Hout as (Hn & _). change (0 =? 0) with true in H. cbn [negb] in H.
  got H devm_clk_get_result p1 Hp1.
  destruct (IS_ERR p1) eqn:E1; cbv beta iota in H.
  2: got H devm_clk_get_result p2 Hp2.
  2: destruct (IS_ERR p2) eqn:E2; cbv beta iota in H.
  3: got H devm_clk_get_result p3 Hp3.
  3: destruct (IS_ERR p3) eqn:E3; cbv beta iota in H.
  4: got H devm_clk_get_result p4 Hp4.
  4: destruct (IS_ERR p4) eqn:E4; cbv beta iota in H.
  5: got H dev_pm_domain_attach_by_name_result p5 Hp5.
  5: destruct (IS_ERR p5) eqn:E5; cbv beta iota in H.
  6: got H dev_pm_domain_attach_by_name_result p6 Hp6.
  6: destruct (IS_ERR p6) eqn:E6; cbv beta iota in H.
  7: got H dev_pm_domain_attach_by_name_result p7 Hp7.
  7: destruct (IS_ERR p7) eqn:E7; cbv beta iota in H.
  8: match type of H with
     | context [wrap_ptr (device_link_add_result hw ?w0 ?x ?y)] =>
         set (p8 := wrap_ptr (device_link_add_result hw w0 x y)) in *; clearbody p8
     end.
  8: destruct (p8 =? NULL) eqn:E8; cbv beta iota in H.
  all: subst result;
    cbn [fst snd events dmesg drvdata log store printk set_core0_clk
           set_core0_bus_clk set_core1_clk set_core1_bus_clk set_pd_core
           set_pd_core0 set_pd_core1 set_pd_dl_venus
           core0_clk core0_bus_clk core1_clk core1_bus_clk
           pd_core pd_core0 pd_core1 pd_dl_venus].
  all: rewrite Hev, Hmsg, <- ?app_assoc; cbn [app].
  all: exists evs; eexists; split; [reflexivity |].
  all: split; [exact Hclk |].
  all: cbn [existsb link_failed orb]; rewrite ?E8; cbn [orb].
  all: split; [first [now rewrite app_nil_r | reflexivity] |].
  all: split;
    [ first [ discriminate
            | intros _; split; [reflexivity | now apply Z.eqb_eq] ] |].
  1-7: intros Hz; exfalso;
    match goal with
    | E : IS_ERR ?p = true, Hp : 0 <= ?p < _ |- _ =>
        destruct (PTR_ERR_of_IS_ERR p Hp E) as [_ Hr];
        unfold MAX_ERRNO in Hr; lia
    end.
  1: intros Hz; discriminate Hz.
  intros _. split; [exact Hn |]. split; [reflexivity |].
  split.
  - cbn [forallb]. rewrite E1, E2, E3, E4, E5, E6, E7. reflexivity.
  - now apply Z.eqb_neq.
Qed.

End Resolve.

Lemma clk_gets_no_failed_link (evs : list event) :
  forallb is_clk_get evs = true -> existsb link_failed evs = false.
Proof.
  induction evs as [| e evs IH]; simpl; intros H; [reflexivity |].
  apply andb_true_iff in H. destruct H as [He H].
  destruct e; try discriminate He. simpl. now apply IH.
Qed.

(** X15. A [get] of generation 4 that returns 0 has looked up all the shared
    clocks and then made exactly eight more calls, in this order: the two
    per-core clock pairs, the domains "venus", "vcodec0" and "vcodec1", and
    one device link whose consumer is the device, whose supplier is the
    "venus" domain handle and whose flags are PM_RUNTIME, STATELESS and
    RPM_ACTIVE. The driver data holds the very pointers these calls
    returned; none is an error pointer, the link is not null, and nothing
    was logged. *)
Theorem core_get_pm_v4_success hw dev w :
  fst (core_get_pm_v4 hw dev w) = 0 ->
  let run := core_get_pm_v4 hw dev w in
  let c := drvdata (snd run) in
  exists evs : list event,
    events (snd run)
    = events w ++ evs
      ++ [EvDevmClkGet "vcodec0_core" (core0_clk c);
          EvDevmClkGet "vcodec0_bus" (core0_bus_clk c);
          EvDevmClkGet "vcodec1_core" (core1_clk c);
          EvDevmClkGet "vcodec1_bus" (core1_bus_clk c);
          EvPmDomainAttach "venus" (pd_core c);
          EvPmDomainAttach "vcodec0" (pd_core0 c);
          EvPmDomainAttach "vcodec1" (pd_core1 c);
          EvDeviceLinkAdd dev (pd_core c) v4_link_flags (pd_dl_venus c)] /\
    forallb is_clk_get evs = true /\
    List.length evs = clks_num (res (drvdata w)) /\
    forallb (fun p => negb (IS_ERR p))
            [core0_clk c; core0_bus_clk c; core1_clk c; core1_bus_clk c;
             pd_core c; pd_core0 c; pd_core1 c] = true /\
    pd_dl_venus c <> NULL /\
    v4_link_flags = 13 /\
    dmesg (snd run) = dmesg w.
Proof.
  intros Hz run c.
  destruct (core_get_pm_v4_handles hw dev w)
    as (evs & tail & Hev & Hclk & Hmsg & _ & Hok).
  fold run in Hev, Hmsg, Hok. fold c in Hok.
  destruct (Hok Hz) as (Hlen & Htail & Herr & Hlink).
  exists evs. rewrite <- Htail.
  split; [exact Hev |]. split; [exact Hclk |]. split; [exact Hlen |].
  split; [exact Herr |]. split; [exact Hlink |]. split; [reflexivity |].
  rewrite Hmsg, Htail. cbn [existsb link_failed orb].
  apply Z.eqb_neq in Hlink. rewrite Hlink. apply app_nil_r.
Qed.

Lemma core_get_pm_v4_success_witness :
  fst (core_get_pm_v4 demo_hw 1 demo_world) = 0 /\
  (let run := core_get_pm_v4 demo_hw 1 demo_world in
   let c := drvdata (snd run) in
   exists evs : list event,
     events (snd run)
     = events demo_world ++ evs
       ++ [EvDevmClkGet "vcodec0_core" (core0_clk c);
           EvDevmClkGet "vcodec0_bus" (core0_bus_clk c);
           EvDevmClkGet "vcodec1_core" (core1_clk c);
           EvDevmClkGet "vcodec1_bus" (core1_bus_clk c);
           EvPmDomainAttach "venus" (pd_core c);
           EvPmDomainAttach "vcodec0" (pd_core0 c);
           EvPmDomainAttach "vcodec1" (pd_core1 c);
           EvDeviceLinkAdd 1 (pd_core c) v4_link_flags (pd_dl_venus c)] /\
     forallb is_clk_get evs = true /\
     List.length evs = clks_num (res (drvdata demo_world)) /\
     forallb (fun p => negb (IS_ERR p))
             [core0_clk c; core0_bus_clk c; core1_clk c; core1_bus_clk c;
              pd_core c; pd_core0 c; pd_core1 c] = true /\
     pd_dl_venus c <> NULL /\
     v4_link_flags = 13 /\
     dmesg (snd run) = dmesg demo_world).
Proof.
  split.
  - reflexivity.
  - apply (core_get_pm_v4_success demo_hw 1 demo_world). reflexivity.
Defined.

(** X16. [get] of generation 4 writes to the kernel log in one case only: a
    line is logged, once, exactly when a device link call returned a null
    pointer. In that case the result is -ENODEV and the link pointer of the
    driver data is null. No failure of a clock lookup or of a domain attach
    is logged. *)
Theorem core_get_pm_v4_log hw dev w :
  let run := core_get_pm_v4 hw dev w in
  exists new : list event,
    events (snd run) = events w ++ new /\
    dmesg (snd run)
    = dmesg w ++ (if existsb link_failed new
                  then [("adding venus device link failed!\n"%string, [])]
                  else []) /\
    (existsb link_failed new = true ->
     fst run = - ENODEV /\ pd_dl_venus (drvdata (snd run)) = NULL).
Proof.
  intros run.
  destruct (core_get_pm_v4_handles hw dev w)
    as (evs & tail & Hev & Hclk & Hmsg & Hfail & _).
  fold run in Hev, Hmsg, Hfail.
  exists (evs ++ tail).
  rewrite existsb_app, (clk_gets_no_failed_link evs Hclk). cbn [orb].
  split; [exact Hev |]. split; [exact Hmsg | exact Hfail].
Qed.
